(** * Air Mouse receiver: the message dispatcher of [air_mouse_receiver.py]

    The development embeds [process_message] and the receive loop of
    [handle_client] in a small state-and-exception monad over a world made of
    the module-level [stats] dictionary, the host pointer subsystem reached
    through PyAutoGUI, the client connection, and the trace of every call the
    program makes to its collaborators ([pyautogui], [websocket.send],
    [print]).

    Python values are modelled as Python has them: integers are unbounded
    ([Z]), floats are IEEE 754 binary64 numbers ([spec_float] with precision
    53 and exponent bound 1024), a decoded JSON object is a finite map from
    strings to values.

    What is left to the collaborators:
    - [json.loads] is a function from frame texts to a value or an exception,
      fixed throughout a section; a frame handed to [websocket.send] is
      recorded as the value given to [json.dumps];
    - the host is any implementation of the [PyAutoGUI] interface, whose
      injection calls may raise; the connection is any implementation of
      [WebSocket], whose [send] may raise;
    - [print] returns: the console is taken to encode every line, the
      device label of a status frame included (the one statement about that
      line is restricted to labels of printable ASCII text);
    - exceptions outside [Exception] (an interrupt, a cancelled task) are
      not modelled; frames are dispatched one at a time, so the [await]
      inside [process_message] interleaves nothing. *)

From Stdlib Require Import ZArith Lia Bool.
From Stdlib Require Import Floats.SpecFloat.
From stdpp Require Import prelude gmap strings.

Set Warnings "-register-all".
Local Open Scope Z_scope.

(** ** Python values and exceptions *)

(** The exception classes that reach the handlers of [process_message] and
    [handle_client].  All of them derive from [Exception]. *)
Inductive exn :=
| JSONDecodeError
| UnicodeDecodeError
| AttributeError
| TypeError
| ValueError
| OverflowError
| FailSafeException
| PyAutoGUIException
| ConnectionClosed.

Inductive outcome (A : Type) :=
| Return (a : A)
| Raise (e : exn).
Arguments Return {A} a.
Arguments Raise {A} e.

(** What [json.loads] produces: [None], [bool], [int], [float], [str], [list]
    and [dict] with string keys. *)
Inductive json :=
| JNull
| JBool (b : bool)
| JInt (z : Z)
| JFloat (f : spec_float)
| JStr (s : string)
| JArr (l : list json)
| JObj (m : gmap string json).

Module Py.

(** binary64 *)
Definition prec : Z := 53.
Definition emax : Z := 1024.

Definition outcome_bind {A B} (o : outcome A) (k : A -> outcome B) : outcome B :=
  match o with
  | Return a => k a
  | Raise e => Raise e
  end.

(** [float(n)] for a Python int: round to nearest even, and
    [OverflowError] ("int too large to convert to float") when the rounded
    value is not a finite double. *)
Definition float_of_int (n : Z) : outcome spec_float :=
  match binary_normalize prec emax n 0 false with
  | S754_infinity _ => Raise OverflowError
  | S754_nan => Raise OverflowError
  | f => Return f
  end.

(** [v * f] where the right operand is a float.  [int] and [bool] (a
    subclass of [int]) are converted to float first; [str], [list], [dict]
    and [None] have no product with a float. *)
Definition mul_float (v : json) (f : spec_float) : outcome spec_float :=
  match v with
  | JInt n => outcome_bind (float_of_int n) (fun x => Return (SFmul prec emax x f))
  | JBool b => outcome_bind (float_of_int (Z.b2z b)) (fun x => Return (SFmul prec emax x f))
  | JFloat x => Return (SFmul prec emax x f)
  | JNull | JStr _ | JArr _ | JObj _ => Raise TypeError
  end.

(** [int(f)] for a float: the integer part (quotient truncated toward
    zero); [OverflowError] on an infinity, [ValueError] on a NaN. *)
Definition int_of_float (f : spec_float) : outcome Z :=
  match f with
  | S754_zero _ => Return 0
  | S754_finite s m e =>
      Return (Z.quot (cond_Zopp s (Z.pos m) * 2 ^ Z.max 0 e) (2 ^ Z.max 0 (- e)))
  | S754_infinity _ => Raise OverflowError
  | S754_nan => Raise ValueError
  end.

(** [data.get(key, default)]: only a [dict] has the method. *)
Definition get (data : json) (key : string) (dflt : json) : outcome json :=
  match data with
  | JObj m => Return (default dflt (m !! key))
  | _ => Raise AttributeError
  end.

(** [v == s] for a string literal [s]. *)
Definition eq_str (v : json) (s : string) : bool :=
  match v with
  | JStr s' => String.eqb s' s
  | _ => false
  end.

End Py.

(** ** Configuration *)

(** [MOUSE_ACCELERATION = 1.2]: the double nearest to 1.2,
    5404319552844595 * 2^-52. *)
Definition MOUSE_ACCELERATION : spec_float := S754_finite false 5404319552844595 (-52).
Definition SMOOTH_MOVEMENT : bool := true.

(** The literal [0.002] of [duration=0.002]: 4611686018427388 * 2^-61. *)
Definition SMOOTH_DURATION : spec_float := S754_finite false 4611686018427388 (-61).

(** ** Statistics *)

(** [stats = {'commands': 0, 'movements': 0, 'clicks': 0}] *)
Record Stats := mkStats { commands : Z; movements : Z; clicks : Z }.

Definition stats0 : Stats := mkStats 0 0 0.

(** [stats['commands'] += 1], [stats['movements'] += 1], [stats['clicks'] += 1] *)
Definition count_command (s : Stats) : Stats :=
  mkStats (commands s + 1) (movements s) (clicks s).
Definition count_movement (s : Stats) : Stats :=
  mkStats (commands s) (movements s + 1) (clicks s).
Definition count_click (s : Stats) : Stats :=
  mkStats (commands s) (movements s) (clicks s + 1).

(** ** Collaborators *)

(** The calls made on [pyautogui]. *)
Inductive host_call :=
| Position
| Size
| MoveTo (x y : Z) (duration : option spec_float)
| Click
| RightClick
| DoubleClick
| Scroll (amount : Z).

(** The lines written with [print]. *)
Inductive log_line :=
| LogClientConnected (ip : string)
| LogClientDisconnected (ip : string)
| LogClientError (ip : string) (e : exn)
| LogLeftClick
| LogRightClick
| LogDoubleClick
| LogScrollUp
| LogScrollDown
| LogDevice (device : json)
| LogInvalidJSON
| LogProcessingError (e : exn).

(** Everything the program does to the outside, in program order.  [Send j]
    is the call [websocket.send(json.dumps(j))]. *)
Inductive event :=
| HostCall (c : host_call)
| Send (frame : json)
| Printed (l : log_line).

(** The host pointer subsystem behind PyAutoGUI.  Reading the cursor and the
    screen size does not change the host; an injection call either returns or
    raises (with [pyautogui.FAILSAFE = True], [FailSafeException]).  A screen
    has at least one pixel in each direction. *)
Class PyAutoGUI (H : Type) := {
  gui_position : H -> Z * Z;
  gui_size : H -> positive * positive;
  gui_moveTo : Z -> Z -> option spec_float -> H -> outcome unit * H;
  gui_click : H -> outcome unit * H;
  gui_rightClick : H -> outcome unit * H;
  gui_doubleClick : H -> outcome unit * H;
  gui_scroll : Z -> H -> outcome unit * H
}.

(** The client connection handed to the handler by [websockets]. *)
Class WebSocket (C : Type) := {
  ws_remote_address : C -> string;
  ws_send : json -> C -> outcome unit * C
}.

(** The two frames the server writes. *)
Definition welcome_frame : json :=
  JObj (<["type" := JStr "welcome"]> (<["message" := JStr "Air Mouse Server Ready"]> ∅)).
Definition response_frame : json :=
  JObj (<["type" := JStr "response"]> (<["message" := JStr "Click executed"]> ∅)).

(** ** The program *)

Section Dispatcher.
Context {H C : Type} `{!PyAutoGUI H} `{!WebSocket C}.

(** [json.loads] on the text of a frame. *)
Variable json_loads : string -> outcome json.

Record world := World {
  stats : Stats;
  screen : H;
  socket : C;
  trace : list event
}.

(** Computations that read and write the world and may raise.  As in
    Python, what was written before an exception stays written. *)
Definition M (A : Type) : Type := world -> outcome A * world.

Definition ret {A} (a : A) : M A := fun w => (Return a, w).
Definition bind {A B} (m : M A) (k : A -> M B) : M B :=
  fun w => match m w with
           | (Return a, w') => k a w'
           | (Raise e, w') => (Raise e, w')
           end.
Definition lift {A} (o : outcome A) : M A := fun w => (o, w).
Definition try_except {A} (body : M A) (handler : exn -> M A) : M A :=
  fun w => match body w with
           | (Return a, w') => (Return a, w')
           | (Raise e, w') => handler e w'
           end.

Notation "x <- m ;; k" := (bind m (fun x => k))
  (at level 20, m at level 99, k at level 200, only parsing).
Notation "m ;;; k" := (bind m (fun _ => k))
  (at level 100, k at level 200, right associativity, only parsing).

Fixpoint for_each {A} (l : list A) (body : A -> M unit) : M unit :=
  match l with
  | [] => ret tt
  | x :: l' => body x ;;; for_each l' body
  end.

Definition emit (e : event) : M unit :=
  fun w => (Return tt, World (stats w) (screen w) (socket w) (trace w ++ [e])).
Definition print (l : log_line) : M unit := emit (Printed l).

Definition update_stats (f : Stats -> Stats) : M unit :=
  fun w => (Return tt, World (f (stats w)) (screen w) (socket w) (trace w)).
Definition incr_commands : M unit := update_stats count_command.
Definition incr_movements : M unit := update_stats count_movement.
Definition incr_clicks : M unit := update_stats count_click.

Definition pyautogui_position : M (Z * Z) :=
  fun w => (Return (gui_position (screen w)),
            World (stats w) (screen w) (socket w) (trace w ++ [HostCall Position])).
Definition pyautogui_size : M (Z * Z) :=
  fun w => (Return (Z.pos (gui_size (screen w)).1, Z.pos (gui_size (screen w)).2),
            World (stats w) (screen w) (socket w) (trace w ++ [HostCall Size])).

(** An injection call: recorded, then left to the host. *)
Definition inject (c : host_call) (op : H -> outcome unit * H) : M unit :=
  fun w => let '(r, h') := op (screen w) in
           (r, World (stats w) h' (socket w) (trace w ++ [HostCall c])).
Definition pyautogui_moveTo (x y : Z) (duration : option spec_float) : M unit :=
  inject (MoveTo x y duration) (gui_moveTo x y duration).
Definition pyautogui_click : M unit := inject Click gui_click.
Definition pyautogui_rightClick : M unit := inject RightClick gui_rightClick.
Definition pyautogui_doubleClick : M unit := inject DoubleClick gui_doubleClick.
Definition pyautogui_scroll (amount : Z) : M unit :=
  inject (Scroll amount) (gui_scroll amount).

Definition websocket_send (frame : json) : M unit :=
  fun w => let '(r, c') := ws_send frame (socket w) in
           (r, World (stats w) (screen w) c' (trace w ++ [Send frame])).

(** [int(data.get(key, 0) * MOUSE_ACCELERATION)] *)
Definition scaled_delta (data : json) (key : string) : outcome Z :=
  Py.outcome_bind (Py.get data key (JInt 0)) (fun v =>
  Py.outcome_bind (Py.mul_float v MOUSE_ACCELERATION) Py.int_of_float).

Definition process_message (message : string) : M unit :=
  try_except
    (data <- lift (json_loads message) ;;
     msg_type <- lift (Py.get data "type" (JStr "")) ;;
     incr_commands ;;;
     if Py.eq_str msg_type "move" then
       delta_x <- lift (scaled_delta data "deltaX") ;;
       delta_y <- lift (scaled_delta data "deltaY") ;;
       if negb (delta_x =? 0) || negb (delta_y =? 0) then
         current <- pyautogui_position ;;
         screen_size <- pyautogui_size ;;
         let new_x := Z.max 0 (Z.min (screen_size.1 - 1) (current.1 + delta_x)) in
         let new_y := Z.max 0 (Z.min (screen_size.2 - 1) (current.2 + delta_y)) in
         (if SMOOTH_MOVEMENT
          then pyautogui_moveTo new_x new_y (Some SMOOTH_DURATION)
          else pyautogui_moveTo new_x new_y None) ;;;
         incr_movements
       else ret tt
     else if Py.eq_str msg_type "command" then
       command <- lift (Py.get data "command" (JStr "")) ;;
       if Py.eq_str command "leftclick" then
         pyautogui_click ;;;
         incr_clicks ;;;
         print LogLeftClick ;;;
         websocket_send response_frame
       else if Py.eq_str command "rightclick" then
         pyautogui_rightClick ;;;
         incr_clicks ;;;
         print LogRightClick
       else if Py.eq_str command "doubleclick" then
         pyautogui_doubleClick ;;;
         incr_clicks ;;;
         print LogDoubleClick
       else if Py.eq_str command "scroll_up" then
         pyautogui_scroll 3 ;;;
         print LogScrollUp
       else if Py.eq_str command "scroll_down" then
         pyautogui_scroll (-3) ;;;
         print LogScrollDown
       else ret tt
     else if Py.eq_str msg_type "status" then
       device <- lift (Py.get data "device" (JStr "Unknown")) ;;
       print (LogDevice device)
     else ret tt)
    (fun e => match e with
              | JSONDecodeError => print LogInvalidJSON
              | _ => print (LogProcessingError e)
              end).

(** [handle_client] on a connection whose peer address is known, that
    delivers the frames [incoming] and is then closed normally, so that
    [async for] ends without raising.  [handle_client_stream] below is the
    function in full. *)
Definition handle_client (incoming : list string) : M unit :=
  fun w0 =>
    let client_ip := ws_remote_address (socket w0) in
    (print (LogClientConnected client_ip) ;;;
     try_except
       (websocket_send welcome_frame ;;;
        for_each incoming process_message)
       (fun e => match e with
                 | ConnectionClosed => print (LogClientDisconnected client_ip)
                 | _ => print (LogClientError client_ip e)
                 end)) w0.

(** [handle_client] in full.  [address] is what reading
    [websocket.remote_address[0]] gives: an address, or the [TypeError] of
    subscripting [None] when the transport has no peer; the read stands
    before the [try], so its exception leaves the function.  [ending] is how
    [async for] ends after the frames [incoming]: it returns on a normal
    close and raises [ConnectionClosed] on an abnormal one. *)
Definition handle_client_stream (address : outcome string) (incoming : list string)
    (ending : outcome unit) : M unit :=
  fun w0 =>
    match address with
    | Raise e => (Raise e, w0)
    | Return client_ip =>
        (print (LogClientConnected client_ip) ;;;
         try_except
           (websocket_send welcome_frame ;;;
            for_each incoming process_message ;;;
            lift ending)
           (fun e => match e with
                     | ConnectionClosed => print (LogClientDisconnected client_ip)
                     | _ => print (LogClientError client_ip e)
                     end)) w0
    end.

End Dispatcher.

Arguments world : clear implicits.
Arguments M : clear implicits.

(** ** A reference host

    A desktop with one screen and the fail-safe of PyAutoGUI: with
    [pyautogui.FAILSAFE = True] every injection call first checks the cursor
    and raises [FailSafeException] when it sits in one of the four corners
    of the screen.  The dispatcher is run on it for the concrete frames
    below. *)

Module Desk.

Record desk := mkDesk { cursor : Z * Z; resolution : positive * positive }.

Definition in_corner (d : desk) : bool :=
  (((cursor d).1 =? 0) || ((cursor d).1 =? Z.pos (resolution d).1 - 1)) &&
  (((cursor d).2 =? 0) || ((cursor d).2 =? Z.pos (resolution d).2 - 1)).

Definition checked (f : desk -> desk) (d : desk) : outcome unit * desk :=
  if in_corner d then (Raise FailSafeException, d) else (Return tt, f d).

#[global] Instance desk_gui : PyAutoGUI desk := {|
  gui_position := cursor;
  gui_size := resolution;
  gui_moveTo x y _ := checked (fun d => mkDesk (x, y) (resolution d));
  gui_click := checked id;
  gui_rightClick := checked id;
  gui_doubleClick := checked id;
  gui_scroll _ := checked id
|}.

(** A connection that accepts frames while it is open. *)
Record link := mkLink { peer : string; is_open : bool }.

#[global] Instance link_ws : WebSocket link := {|
  ws_remote_address := peer;
  ws_send _ c := if is_open c then (Return tt, c) else (Raise ConnectionClosed, c)
|}.

(** A decoder given by its graph on finitely many frame texts; any other
    text is not JSON. *)
Definition loads (table : list (string * json)) (text : string) : outcome json :=
  match list_find (fun p => String.eqb p.1 text) table with
  | Some (_, (_, j)) => Return j
  | None => Raise JSONDecodeError
  end.

Definition start (x y : Z) (w h : positive) : world desk link :=
  World stats0 (mkDesk (x, y) (w, h)) (mkLink "192.168.4.2" true) [].

(** The fields of the frames the device sends. *)
Definition move_fields (dx dy : json) : gmap string json :=
  <["type" := JStr "move"]> (<["deltaX" := dx]> (<["deltaY" := dy]> ∅)).
Definition command_fields (c : string) : gmap string json :=
  <["type" := JStr "command"]> (<["command" := JStr c]> ∅).

(** 3 * 1.2 as a double is 3.5999999999999996 = 8106479329266892 * 2^-51. *)
Definition three_scaled : spec_float := S754_finite false 8106479329266892 (-51).

(** Sample frames, under short names for their texts. *)
Definition frames : list (string * json) :=
  [ ("move 3 0", JObj (move_fields (JInt 3) (JInt 0)));
    ("move -999999 0", JObj (move_fields (JInt (-999999)) (JInt 0)));
    ("move 0 0", JObj (move_fields (JInt 0) (JFloat (S754_zero true))));
    ("move 10^400 0", JObj (move_fields (JInt (10 ^ 400)) (JInt 0)));
    ("move abc 5", JObj (move_fields (JStr "abc") (JInt 5)));
    ("move 0 5", JObj (move_fields (JInt 0) (JInt 5)));
    ("move - 5", JObj (<["type" := JStr "move"]> (<["deltaY" := JInt 5]> ∅)));
    ("leftclick", JObj (command_fields "leftclick"));
    ("rightclick", JObj (command_fields "rightclick"));
    ("scroll_up", JObj (command_fields "scroll_up"));
    ("status", JObj (<["type" := JStr "status"]> (<["device" := JStr "NodeMCU"]> ∅)));
    ("42", JInt 42) ].

Definition decode : string -> outcome json := loads frames.

(** [4 * n] frames of mixed types. *)
Fixpoint mixed (n : nat) : list string :=
  match n with
  | O => []
  | S n' => "move 3 0" :: "leftclick" :: "status" :: "scroll_up" :: mixed n'
  end.

End Desk.

(** ** Observations and the vocabulary of the specification *)

(** The calls on the host, and the frames handed to [websocket.send], among
    the events of a trace. *)
Definition host_calls (tr : list event) : list host_call :=
  omap (fun e => match e with HostCall c => Some c | _ => None end) tr.
Definition replies (tr : list event) : list json :=
  omap (fun e => match e with Send j => Some j | _ => None end) tr.

(** The target of the last [moveTo] of a trace. *)
Definition commanded_target (tr : list event) : option (Z * Z) :=
  last (omap (fun e => match e with
                       | HostCall (MoveTo x y _) => Some (x, y)
                       | _ => None
                       end) tr).

(** [clamp(x, lo, hi)] *)
Definition clamp (x lo hi : Z) : Z := Z.max lo (Z.min hi x).

Definition numeric (v : json) : Prop :=
  match v with JInt _ | JFloat _ => True | _ => False end.
Definition zero_number (v : json) : Prop :=
  match v with JInt 0 | JFloat (S754_zero _) => True | _ => False end.
Definition not_a_number (v : json) : Prop :=
  match v with JNull | JStr _ | JArr _ | JObj _ => True | _ => False end.
Definition not_an_object (v : json) : Prop :=
  match v with JObj _ => False | _ => True end.

(** A double that is a number: neither an infinity nor a NaN. *)
Definition finite (f : spec_float) : bool :=
  match f with S754_zero _ | S754_finite _ _ _ => true | _ => false end.

(** The value of a finite double as the fraction [SFnum f / SFden f]. *)
Definition SFnum (f : spec_float) : Z :=
  match f with
  | S754_finite s m e => cond_Zopp s (Z.pos m) * 2 ^ Z.max 0 e
  | _ => 0
  end.
Definition SFden (f : spec_float) : Z :=
  match f with
  | S754_finite _ _ e => 2 ^ Z.max 0 (- e)
  | _ => 1
  end.

(** Truncation toward zero, and rounding to the nearest integer (halves to
    the even neighbour, as Python's [round]). *)
Definition SFtrunc (f : spec_float) : Z := Z.quot (SFnum f) (SFden f).
Definition SFround (f : spec_float) : Z :=
  let n := 2 * SFnum f + SFden f in
  let d := 2 * SFden f in
  if (n mod d =? 0) && Z.odd (n / d) then n / d - 1 else n / d.

(** The specification's per-axis rule, for a rounding [rnd] of the scaled
    delta. *)
Definition axis_target (rnd : spec_float -> Z) (current : Z) (p : spec_float) (bound : Z) : Z :=
  clamp (current + rnd p) 0 (bound - 1).

(** One dispatch changes the counters in one of four ways. *)
Definition counters_step (s s' : Stats) : Prop :=
  s' = s \/ s' = count_command s \/
  s' = count_movement (count_command s) \/ s' = count_click (count_command s).

(** The counters [s'] are the counters [s] plus [dc] commands, [dm]
    movements and [dk] clicks. *)
Definition counters_add (dc dm dk : Z) (s s' : Stats) : Prop :=
  commands s' = commands s + dc /\
  movements s' = movements s + dm /\
  clicks s' = clicks s + dk.

Definition within_commands (s : Stats) : Prop :=
  movements s + clicks s <= commands s.

Section Statements.
Context {H C : Type} `{!PyAutoGUI H} `{!WebSocket C}.
Variable json_loads : string -> outcome json.

(** The world after the dispatch of one frame, and after the receive loop
    has run over a list of frames. *)
Definition dispatch (m : string) (w : world H C) : world H C :=
  (process_message json_loads m w).2.
Definition receive (ms : list string) (w : world H C) : world H C :=
  (for_each ms (process_message json_loads) w).2.

(** The events added between two worlds. *)
Definition emitted (w w' : world H C) : list event :=
  drop (length (trace w)) (trace w').

Definition decodes_to_object (m : string) : Prop :=
  exists o, json_loads m = Return (JObj o).

(** [s] is the double product of [v] and the acceleration, truncated. *)
Definition truncated_product (v : json) (s : Z) : Prop :=
  exists p, Py.mul_float v MOUSE_ACCELERATION = Return p /\
            finite p = true /\ s = SFtrunc p.

(** A move frame with deltas [dx], [dy] is scaled, clamped and commanded. *)
Definition moved_as_claimed (o : gmap string json) (dx dy : json)
    (w w' : world H C) : Prop :=
  exists sx sy,
    scaled_delta (JObj o) "deltaX" = Return sx /\ truncated_product dx sx /\
    scaled_delta (JObj o) "deltaY" = Return sy /\ truncated_product dy sy /\
    (~ (sx = 0 /\ sy = 0) ->
     let new_x := clamp ((gui_position (screen w)).1 + sx) 0
                        (Z.pos (gui_size (screen w)).1 - 1) in
     let new_y := clamp ((gui_position (screen w)).2 + sy) 0
                        (Z.pos (gui_size (screen w)).2 - 1) in
     host_calls (emitted w w') =
       [Position; Size; MoveTo new_x new_y (Some SMOOTH_DURATION)] /\
     0 <= new_x <= Z.pos (gui_size (screen w)).1 - 1 /\
     0 <= new_y <= Z.pos (gui_size (screen w)).2 - 1).

(** Every target commanded between [w] and [w'] follows the per-axis rule
    with the rounding [rnd]. *)
Definition target_follows (rnd : spec_float -> Z) (px py : spec_float)
    (w w' : world H C) : Prop :=
  forall t, commanded_target (emitted w w') = Some t ->
    t = (axis_target rnd (gui_position (screen w)).1 px (Z.pos (gui_size (screen w)).1),
         axis_target rnd (gui_position (screen w)).2 py (Z.pos (gui_size (screen w)).2)).

(** The field [key] of the frame [m] counts as 0: its scaled delta is 0 and
    the dispatch is that of the frame with the field set to 0. *)
Definition treated_as_zero (m : string) (o : gmap string json) (key : string)
    (w : world H C) : Prop :=
  scaled_delta (JObj o) key = Return 0 /\
  forall m0, json_loads m0 = Return (JObj (<[key := JInt 0]> o)) ->
    process_message json_loads m w = process_message json_loads m0 w.

(** The frame was counted, one more command and no more movement or click,
    and nothing else was done with it. *)
Definition dropped_after_count (w w' : world H C) : Prop :=
  counters_add 1 0 0 (stats w) (stats w') /\
  host_calls (emitted w w') = [] /\ replies (emitted w w') = [].

Definition counted_once (m : string) (w : world H C) : Prop :=
  commands (stats (dispatch m w)) = commands (stats w) + 1.

(** The reply rule of command frames. *)
Definition replied_as_claimed (command : json) (w w' : world H C) : Prop :=
  replies (emitted w w') =
    if Py.eq_str command "leftclick" then [response_frame] else [].

(** The frame [o] makes the dispatcher call an injection primitive that
    raises [e] on the host of [w].  One case per call site. *)
Inductive injection_fails (o : gmap string json) (w : world H C) (e : exn) : Prop :=
| fails_moveTo (sx sy : Z) :
    default (JStr "") (o !! "type") = JStr "move" ->
    scaled_delta (JObj o) "deltaX" = Return sx ->
    scaled_delta (JObj o) "deltaY" = Return sy ->
    ~ (sx = 0 /\ sy = 0) ->
    (gui_moveTo
       (Z.max 0 (Z.min (Z.pos (gui_size (screen w)).1 - 1) ((gui_position (screen w)).1 + sx)))
       (Z.max 0 (Z.min (Z.pos (gui_size (screen w)).2 - 1) ((gui_position (screen w)).2 + sy)))
       (Some SMOOTH_DURATION) (screen w)).1 = Raise e ->
    injection_fails o w e
| fails_click :
    default (JStr "") (o !! "type") = JStr "command" ->
    default (JStr "") (o !! "command") = JStr "leftclick" ->
    (gui_click (screen w)).1 = Raise e ->
    injection_fails o w e
| fails_rightClick :
    default (JStr "") (o !! "type") = JStr "command" ->
    default (JStr "") (o !! "command") = JStr "rightclick" ->
    (gui_rightClick (screen w)).1 = Raise e ->
    injection_fails o w e
| fails_doubleClick :
    default (JStr "") (o !! "type") = JStr "command" ->
    default (JStr "") (o !! "command") = JStr "doubleclick" ->
    (gui_doubleClick (screen w)).1 = Raise e ->
    injection_fails o w e
| fails_scroll_up :
    default (JStr "") (o !! "type") = JStr "command" ->
    default (JStr "") (o !! "command") = JStr "scroll_up" ->
    (gui_scroll 3 (screen w)).1 = Raise e ->
    injection_fails o w e
| fails_scroll_down :
    default (JStr "") (o !! "type") = JStr "command" ->
    default (JStr "") (o !! "command") = JStr "scroll_down" ->
    (gui_scroll (-3) (screen w)).1 = Raise e ->
    injection_fails o w e.

End Statements.

(** The line printed by the handlers of [process_message] for [e]. *)
Definition handler_line (e : exn) : log_line :=
  match e with
  | JSONDecodeError => LogInvalidJSON
  | _ => LogProcessingError e
  end.

(** Does [int(n * MOUSE_ACCELERATION)] equal the exact product of [n] by
    6/5, truncated?  Checked on [n], and on every integer up to [k] in
    magnitude. *)
Definition exact_on (n : Z) : bool :=
  match Py.outcome_bind (Py.mul_float (JInt n) MOUSE_ACCELERATION) Py.int_of_float with
  | Return s => s =? Z.quot (6 * n) 5
  | Raise _ => false
  end.

Fixpoint exact_upto (k : nat) : bool :=
  match k with
  | O => exact_on 0
  | S k' => exact_on (Z.of_nat k) && exact_on (- Z.of_nat k) && exact_upto k'
  end.

(** ** The periodic report, and further observations *)

(** One iteration of [stats_monitor] once its sleep is over: the counters it
    prints, if it prints. *)
Definition stats_monitor_tick (s : Stats) : option (Z * Z * Z) :=
  if 0 <? commands s then Some (commands s, movements s, clicks s) else None.

(** Does the text of a frame decode to a JSON object? *)
Definition is_object_frame (json_loads : string -> outcome json) (m : string) : bool :=
  match json_loads m with
  | Return (JObj _) => true
  | _ => false
  end.

(** A device label of printable ASCII characters, which [print] can write
    on any console. *)
Fixpoint printable_ascii (s : string) : bool :=
  match s with
  | EmptyString => true
  | String a s' =>
      (32 <=? Z.of_N (Ascii.N_of_ascii a)) && (Z.of_N (Ascii.N_of_ascii a) <=? 126) &&
      printable_ascii s'
  end.
Definition plain_label (v : json) : Prop :=
  match v with
  | JStr s => printable_ascii s = true
  | _ => False
  end.

(** The keys [process_message] reads in a frame. *)
Definition read_fields : list string :=
  ["type"; "deltaX"; "deltaY"; "command"; "device"].
Definition same_fields (o o' : gmap string json) : Prop :=
  Forall (fun k => o !! k = o' !! k) read_fields.

Definition is_moveTo (c : host_call) : bool :=
  match c with MoveTo _ _ _ => true | _ => false end.
Definition is_click (c : host_call) : bool :=
  match c with Click | RightClick | DoubleClick => true | _ => false end.

(** How many calls of a kind a list of events holds. *)
Definition count_calls (kind : host_call -> bool) (tr : list event) : Z :=
  Z.of_nat (length (List.filter kind (host_calls tr))).

(** The counters against the events of the same period: every counted
    movement has its [moveTo], every counted click its click call, every
    reply its counted click, and nothing but the response frame is sent. *)
Definition accounted (s s' : Stats) (new : list event) : Prop :=
  movements s' - movements s <= count_calls is_moveTo new /\
  clicks s' - clicks s <= count_calls is_click new /\
  Z.of_nat (length (replies new)) <= clicks s' - clicks s /\
  Forall (fun j => j = response_frame) (replies new).

(** The counters only grow, by at most [n] commands, and the applied
    counters grow no more than the commands. *)
Definition counters_grow (n : Z) (s s' : Stats) : Prop :=
  commands s <= commands s' <= commands s + n /\
  movements s <= movements s' /\ clicks s <= clicks s' /\
  (movements s' - movements s) + (clicks s' - clicks s) <= commands s' - commands s.

(** The click command of each click call. *)
Definition click_command (c : host_call) : option string :=
  match c with
  | Click => Some "leftclick"
  | RightClick => Some "rightclick"
  | DoubleClick => Some "doubleclick"
  | _ => None
  end.

(** More sample frames and worlds for the reference host. *)
Module Samples.

(** 0.5, and 0.5 * 1.2 = 0.6 as a double. *)
Definition half : spec_float := S754_finite false 4503599627370496 (-53).
Definition half_scaled : spec_float := S754_finite false 5404319552844595 (-53).

Definition frames : list (string * json) :=
  [ ("ping", JObj (<["type" := JStr "ping"]> ∅));
    ("untyped", JObj (<["deltaX" := JInt 3]> ∅));
    ("status", JObj (<["type" := JStr "status"]> ∅));
    ("leftclick", JObj (Desk.command_fields "leftclick"));
    ("doubleclick", JObj (Desk.command_fields "doubleclick"));
    ("scroll_down", JObj (Desk.command_fields "scroll_down"));
    ("move 3 0", JObj (Desk.move_fields (JInt 3) (JInt 0)));
    ("move 3 0 seq", JObj (<["seq" := JInt 7]> (Desk.move_fields (JInt 3) (JInt 0))));
    ("move 0.5 -0.5", JObj (Desk.move_fields (JFloat half) (JFloat (SFopp half))));
    ("[1, 2]", JArr [JInt 1; JInt 2]) ].

Definition decode : string -> outcome json := Desk.loads frames.

(** A world whose connection is already closed. *)
Definition offline (x y : Z) (w h : positive) : world Desk.desk Desk.link :=
  World stats0 (Desk.mkDesk (x, y) (w, h)) (Desk.mkLink "192.168.4.2" false) [].

End Samples.

(** ** Tactics *)

Ltac unfold_program :=
  unfold process_message, try_except, bind, lift, ret, print, emit,
    incr_commands, incr_movements, incr_clicks, update_stats,
    pyautogui_position, pyautogui_size, pyautogui_moveTo, pyautogui_click,
    pyautogui_rightClick, pyautogui_doubleClick, pyautogui_scroll, inject,
    websocket_send.

Ltac eval_tests :=
  cbn [Py.get Py.eq_str String.eqb Ascii.eqb Bool.eqb
       stats screen socket trace fst snd SMOOTH_MOVEMENT].

(** Enter the frame: decode it, read its type, count it. *)
Ltac enter_frame Hl Ht :=
  unfold_program; rewrite Hl; cbn [Py.get]; rewrite Ht; eval_tests.

(** Split on the outcome of the next call to a collaborator. *)
Ltac split_call :=
  match goal with
  | |- context [gui_moveTo ?x ?y ?d ?h] => destruct (gui_moveTo x y d h) as [[[]|[]] ?]
  | |- context [gui_click ?h] => destruct (gui_click h) as [[[]|[]] ?]
  | |- context [gui_rightClick ?h] => destruct (gui_rightClick h) as [[[]|[]] ?]
  | |- context [gui_doubleClick ?h] => destruct (gui_doubleClick h) as [[[]|[]] ?]
  | |- context [gui_scroll ?n ?h] => destruct (gui_scroll n h) as [[[]|[]] ?]
  | |- context [ws_send ?j ?c] => destruct (ws_send j c) as [[[]|[]] ?]
  end.

Ltac finish_run :=
  eval_tests; repeat (split_call; eval_tests); rewrite <- ?app_assoc; reflexivity.

Ltac by_evaluation := repeat split; try exact I; vm_compute; reflexivity.


(** ** Python arithmetic of the scaled delta *)

Lemma int_of_float_finite (p : spec_float) :
  finite p = true -> Py.int_of_float p = Return (SFtrunc p).
Proof. destruct p; intros Hp; try discriminate Hp; reflexivity. Qed.

Lemma int_of_float_returns (p : spec_float) (s : Z) :
  Py.int_of_float p = Return s -> finite p = true.
Proof. destruct p; intros Hs; try discriminate Hs; reflexivity. Qed.

Lemma SFden_pos (f : spec_float) : 0 < SFden f.
Proof.
  destruct f as [| | |s m e]; cbn [SFden]; lia.
Qed.

(** [SFtrunc] is the integer part: the largest magnitude below the value,
    with the sign of the value. *)
Lemma SFtrunc_toward_zero (f : spec_float) :
  Z.abs (SFtrunc f) * SFden f <= Z.abs (SFnum f) < (Z.abs (SFtrunc f) + 1) * SFden f /\
  0 <= SFtrunc f * SFnum f.
Proof.
  unfold SFtrunc. pose proof (SFden_pos f) as Hd.
  set (n := SFnum f) in *. set (d := SFden f) in *. clearbody n d.
  pose proof (Z.quot_rem' n d) as E.
  destruct (Z.le_gt_cases 0 n) as [Hn|Hn].
  - pose proof (Z.rem_bound_pos n d Hn Hd).
    assert (0 <= n ÷ d) by (apply Z.quot_pos; lia).
    rewrite !Z.abs_eq by lia. nia.
  - pose proof (Z.rem_bound_pos_neg n d Hd ltac:(lia)).
    assert (n ÷ d <= 0).
    { rewrite <- (Z.opp_involutive n), Z.quot_opp_l by lia.
      assert (0 <= (- n) ÷ d) by (apply Z.quot_pos; lia). lia. }
    rewrite !Z.abs_neq by lia. nia.
Qed.

(** [SFround] is a nearest integer: twice its distance to the value does not
    exceed one. *)
Lemma SFround_nearest (f : spec_float) :
  Z.abs (2 * (SFround f * SFden f - SFnum f)) <= SFden f.
Proof.
  unfold SFround. pose proof (SFden_pos f) as Hd.
  set (n := SFnum f) in *. set (d := SFden f) in *. clearbody n d.
  pose proof (Z.div_mod (2 * n + d) (2 * d) ltac:(lia)) as E.
  pose proof (Z.mod_pos_bound (2 * n + d) (2 * d) ltac:(lia)) as B.
  destruct (Z.eqb_spec ((2 * n + d) mod (2 * d)) 0) as [E0|E0]; cbn [andb].
  - destruct (Z.odd _); lia.
  - lia.
Qed.

Lemma scaled_delta_absent (o : gmap string json) (key : string) :
  o !! key = None -> scaled_delta (JObj o) key = Return 0.
Proof.
  intros Hk. unfold scaled_delta. cbn [Py.get]. rewrite Hk. reflexivity.
Qed.

Lemma scaled_delta_present (o : gmap string json) (key : string) (v : json) :
  o !! key = Some v ->
  scaled_delta (JObj o) key =
    Py.outcome_bind (Py.mul_float v MOUSE_ACCELERATION) Py.int_of_float.
Proof.
  intros Hk. unfold scaled_delta. cbn [Py.get]. rewrite Hk. reflexivity.
Qed.

Lemma scaled_delta_truncates (o : gmap string json) (key : string) (v : json)
    (p : spec_float) :
  o !! key = Some v ->
  Py.mul_float v MOUSE_ACCELERATION = Return p -> finite p = true ->
  scaled_delta (JObj o) key = Return (SFtrunc p).
Proof.
  intros Hk Hp Hf. rewrite (scaled_delta_present _ _ _ Hk), Hp.
  exact (int_of_float_finite p Hf).
Qed.

Lemma scaled_delta_zero (o : gmap string json) (key : string) (v : json) :
  o !! key = Some v -> zero_number v -> scaled_delta (JObj o) key = Return 0.
Proof.
  intros Hk Hz. rewrite (scaled_delta_present _ _ _ Hk).
  destruct v as [| |z|f| | |]; try destruct Hz.
  - destruct z; try destruct Hz. reflexivity.
  - destruct f as [[]| | |]; try destruct Hz; reflexivity.
Qed.

Lemma scaled_delta_not_a_number (o : gmap string json) (key : string) (v : json) :
  o !! key = Some v -> not_a_number v -> scaled_delta (JObj o) key = Raise TypeError.
Proof.
  intros Hk Hv. rewrite (scaled_delta_present _ _ _ Hk).
  destruct v; try destruct Hv; reflexivity.
Qed.

Lemma scaled_delta_bool (o : gmap string json) (key : string) (b : bool) :
  o !! key = Some (JBool b) -> scaled_delta (JObj o) key = Return (Z.b2z b).
Proof.
  intros Hk. rewrite (scaled_delta_present _ _ _ Hk). destruct b; reflexivity.
Qed.

(** The handlers never see [JSONDecodeError] from the arithmetic. *)
Lemma scaled_delta_raises (data : json) (key : string) (e : exn) :
  scaled_delta data key = Raise e ->
  e = AttributeError \/ e = TypeError \/ e = OverflowError \/ e = ValueError.
Proof.
  unfold scaled_delta, Py.get, Py.mul_float, Py.float_of_int, Py.int_of_float,
    Py.outcome_bind.
  repeat case_match; intros E; simplify_eq; auto.
Qed.

(** On small integer deltas the double arithmetic agrees with the exact
    product by 6/5, truncated. *)
Lemma exact_upto_sound (k : nat) :
  exact_upto k = true ->
  forall n, - Z.of_nat k <= n <= Z.of_nat k -> exact_on n = true.
Proof.
  induction k as [|k IH]; cbn [exact_upto]; intros Hk n Hn.
  - replace n with 0 by lia. exact Hk.
  - apply andb_prop in Hk as [Hk Hrest]. apply andb_prop in Hk as [Hpos Hneg].
    destruct (Z.eq_dec n (Z.of_nat (S k))) as [->|]; [exact Hpos|].
    destruct (Z.eq_dec n (- Z.of_nat (S k))) as [->|]; [exact Hneg|].
    apply IH; [exact Hrest|lia].
Qed.

Lemma scaled_delta_small_int (o : gmap string json) (key : string) (n : Z) :
  o !! key = Some (JInt n) -> -2000 <= n <= 2000 ->
  scaled_delta (JObj o) key = Return (Z.quot (6 * n) 5).
Proof.
  intros Hk Hn. rewrite (scaled_delta_present _ _ _ Hk).
  assert (Hall : exact_upto 2000 = true) by (vm_compute; reflexivity).
  pose proof (exact_upto_sound 2000 Hall n ltac:(lia)) as E.
  unfold exact_on in E.
  destruct (Py.outcome_bind _ _) as [s|e]; [|discriminate E].
  apply Z.eqb_eq in E. now subst s.
Qed.

(** ** Runs of [process_message], branch by branch *)

Lemma eq_str_true (v : json) (s : string) : Py.eq_str v s = true <-> v = JStr s.
Proof.
  destruct v; cbn [Py.eq_str]; try (split; [discriminate|congruence]).
  rewrite String.eqb_eq. split; congruence.
Qed.

Lemma nonzero_test (sx sy : Z) :
  negb (sx =? 0) || negb (sy =? 0) = negb (bool_decide (sx = 0 /\ sy = 0)).
Proof.
  destruct (Z.eqb_spec sx 0), (Z.eqb_spec sy 0); case_bool_decide;
    try reflexivity; tauto.
Qed.

Section Runs.
Context {H C : Type} `{!PyAutoGUI H} `{!WebSocket C}.
Variable json_loads : string -> outcome json.
Implicit Types (w : world H C) (m : string) (o : gmap string json).

Lemma emitted_app w (s : Stats) (h : H) (c : C) (l : list event) :
  emitted w (World s h c (trace w ++ l)) = l.
Proof. unfold emitted. cbn [trace]. apply drop_app_length. Qed.

Lemma emitted_nil w (s : Stats) (h : H) (c : C) :
  emitted w (World s h c (trace w)) = [].
Proof. unfold emitted. cbn [trace]. apply drop_all. Qed.

(** No exception leaves [process_message], whatever the frame, the host
    and the connection do: both handlers only print. *)
Lemma process_message_returns m w :
  (process_message json_loads m w).1 = Return tt.
Proof.
  unfold process_message, try_except.
  match goal with
  | |- context [match ?b w with _ => _ end] => destruct (b w) as [[[]|e] w']
  end.
  - reflexivity.
  - destruct e; reflexivity.
Qed.

Lemma for_each_step m (ms : list string) w :
  for_each (m :: ms) (process_message json_loads) w =
  for_each ms (process_message json_loads) (dispatch json_loads m w).
Proof.
  cbn [for_each]. unfold bind at 1, dispatch.
  pose proof (process_message_returns m w) as Hr.
  destruct (process_message json_loads m w) as [[[]|e] w']; [reflexivity|].
  discriminate Hr.
Qed.

Lemma receive_cons m (ms : list string) w :
  receive json_loads (m :: ms) w =
  receive json_loads ms (dispatch json_loads m w).
Proof. unfold receive. now rewrite for_each_step. Qed.

Lemma receive_returns (ms : list string) w :
  (for_each ms (process_message json_loads) w).1 = Return tt.
Proof.
  revert w. induction ms as [|m ms IH]; intros w; [reflexivity|].
  rewrite for_each_step. apply IH.
Qed.

(** No exception leaves [handle_client] either: a failing greeting is
    caught by its handlers and the frames never raise. *)
Lemma handle_client_returns (ms : list string) w :
  (handle_client json_loads ms w).1 = Return tt.
Proof.
  unfold handle_client, bind, print, emit, try_except, websocket_send.
  cbn [socket]. destruct (ws_send welcome_frame (socket w)) as [[[]|e] c'].
  - match goal with
    | |- context [for_each ms ?f ?w1] =>
        pose proof (receive_returns ms w1) as Hr;
        destruct (for_each ms f w1) as [[[]|e] w2]
    end; [reflexivity|discriminate Hr].
  - destruct e; reflexivity.
Qed.

(** Once the greeting is accepted, a connection is the receive loop over
    its frames, run after the connect line and the greeting frame. *)
Lemma handle_client_dispatches (ms : list string) w (c' : C) :
  ws_send welcome_frame (socket w) = (Return tt, c') ->
  (handle_client json_loads ms w).2 =
    receive json_loads ms
      (World (stats w) (screen w) c'
         (trace w ++ [Printed (LogClientConnected (ws_remote_address (socket w)));
                      Send welcome_frame])).
Proof.
  intros Hs. unfold handle_client, bind, print, emit, try_except, websocket_send, receive.
  cbn [socket stats screen trace]. rewrite Hs, <- app_assoc. cbn [app].
  match goal with
  | |- context [for_each ms ?f ?w1] =>
      pose proof (receive_returns ms w1) as Hr;
      destruct (for_each ms f w1) as [[[]|e] w2]
  end; [reflexivity|discriminate Hr].
Qed.

Lemma run_undecodable m (e : exn) w :
  json_loads m = Raise e ->
  process_message json_loads m w =
    (Return tt, World (stats w) (screen w) (socket w)
                  (trace w ++ [Printed (handler_line e)])).
Proof. intros Hl. unfold_program. rewrite Hl. destruct e; reflexivity. Qed.

Lemma run_not_object m (v : json) w :
  json_loads m = Return v -> not_an_object v ->
  process_message json_loads m w =
    (Return tt, World (stats w) (screen w) (socket w)
                  (trace w ++ [Printed (LogProcessingError AttributeError)])).
Proof.
  intros Hl Hv. unfold_program. rewrite Hl.
  destruct v; try reflexivity. destruct Hv.
Qed.

Section Move.
Variables (m : string) (o : gmap string json).
Hypothesis Hl : json_loads m = Return (JObj o).
Hypothesis Ht : default (JStr "") (o !! "type") = JStr "move".

Lemma run_move_raise_x (e : exn) w :
  scaled_delta (JObj o) "deltaX" = Raise e ->
  process_message json_loads m w =
    (Return tt, World (count_command (stats w)) (screen w) (socket w)
                  (trace w ++ [Printed (handler_line e)])).
Proof. intros Hx. enter_frame Hl Ht. rewrite Hx. destruct e; reflexivity. Qed.

Lemma run_move_raise_y (sx : Z) (e : exn) w :
  scaled_delta (JObj o) "deltaX" = Return sx ->
  scaled_delta (JObj o) "deltaY" = Raise e ->
  process_message json_loads m w =
    (Return tt, World (count_command (stats w)) (screen w) (socket w)
                  (trace w ++ [Printed (handler_line e)])).
Proof.
  intros Hx Hy. enter_frame Hl Ht. rewrite Hx, Hy. destruct e; reflexivity.
Qed.

Lemma run_move_idle w :
  scaled_delta (JObj o) "deltaX" = Return 0 ->
  scaled_delta (JObj o) "deltaY" = Return 0 ->
  process_message json_loads m w =
    (Return tt, World (count_command (stats w)) (screen w) (socket w) (trace w)).
Proof. intros Hx Hy. enter_frame Hl Ht. rewrite Hx, Hy. reflexivity. Qed.

Lemma run_move (sx sy : Z) w :
  scaled_delta (JObj o) "deltaX" = Return sx ->
  scaled_delta (JObj o) "deltaY" = Return sy ->
  ~ (sx = 0 /\ sy = 0) ->
  let new_x := clamp ((gui_position (screen w)).1 + sx) 0
                     (Z.pos (gui_size (screen w)).1 - 1) in
  let new_y := clamp ((gui_position (screen w)).2 + sy) 0
                     (Z.pos (gui_size (screen w)).2 - 1) in
  let issued := [HostCall Position; HostCall Size;
                 HostCall (MoveTo new_x new_y (Some SMOOTH_DURATION))] in
  process_message json_loads m w =
    (Return tt,
     match gui_moveTo new_x new_y (Some SMOOTH_DURATION) (screen w) with
     | (Return _, h') =>
         World (count_movement (count_command (stats w))) h' (socket w)
           (trace w ++ issued)
     | (Raise e, h') =>
         World (count_command (stats w)) h' (socket w)
           (trace w ++ issued ++ [Printed (handler_line e)])
     end).
Proof.
  intros Hx Hy Hnz new_x new_y issued.
  enter_frame Hl Ht. rewrite Hx, Hy, nonzero_test.
  rewrite bool_decide_eq_false_2 by exact Hnz. cbn [negb]. eval_tests.
  subst issued new_x new_y. unfold clamp. finish_run.
Qed.

End Move.

Section Command.
Variables (m : string) (o : gmap string json).
Hypothesis Hl : json_loads m = Return (JObj o).
Hypothesis Ht : default (JStr "") (o !! "type") = JStr "command".

Lemma run_leftclick w :
  default (JStr "") (o !! "command") = JStr "leftclick" ->
  process_message json_loads m w =
    (Return tt,
     match gui_click (screen w) with
     | (Return _, h') =>
         match ws_send response_frame (socket w) with
         | (Return _, c') =>
             World (count_click (count_command (stats w))) h' c'
               (trace w ++ [HostCall Click; Printed LogLeftClick; Send response_frame])
         | (Raise e, c') =>
             World (count_click (count_command (stats w))) h' c'
               (trace w ++ [HostCall Click; Printed LogLeftClick; Send response_frame;
                            Printed (handler_line e)])
         end
     | (Raise e, h') =>
         World (count_command (stats w)) h' (socket w)
           (trace w ++ [HostCall Click; Printed (handler_line e)])
     end).
Proof. intros Hc. enter_frame Hl Ht. rewrite Hc. finish_run. Qed.

Lemma run_rightclick w :
  default (JStr "") (o !! "command") = JStr "rightclick" ->
  process_message json_loads m w =
    (Return tt,
     match gui_rightClick (screen w) with
     | (Return _, h') =>
         World (count_click (count_command (stats w))) h' (socket w)
           (trace w ++ [HostCall RightClick; Printed LogRightClick])
     | (Raise e, h') =>
         World (count_command (stats w)) h' (socket w)
           (trace w ++ [HostCall RightClick; Printed (handler_line e)])
     end).
Proof. intros Hc. enter_frame Hl Ht. rewrite Hc. finish_run. Qed.

Lemma run_doubleclick w :
  default (JStr "") (o !! "command") = JStr "doubleclick" ->
  process_message json_loads m w =
    (Return tt,
     match gui_doubleClick (screen w) with
     | (Return _, h') =>
         World (count_click (count_command (stats w))) h' (socket w)
           (trace w ++ [HostCall DoubleClick; Printed LogDoubleClick])
     | (Raise e, h') =>
         World (count_command (stats w)) h' (socket w)
           (trace w ++ [HostCall DoubleClick; Printed (handler_line e)])
     end).
Proof. intros Hc. enter_frame Hl Ht. rewrite Hc. finish_run. Qed.

Lemma run_scroll_up w :
  default (JStr "") (o !! "command") = JStr "scroll_up" ->
  process_message json_loads m w =
    (Return tt,
     match gui_scroll 3 (screen w) with
     | (Return _, h') =>
         World (count_command (stats w)) h' (socket w)
           (trace w ++ [HostCall (Scroll 3); Printed LogScrollUp])
     | (Raise e, h') =>
         World (count_command (stats w)) h' (socket w)
           (trace w ++ [HostCall (Scroll 3); Printed (handler_line e)])
     end).
Proof. intros Hc. enter_frame Hl Ht. rewrite Hc. finish_run. Qed.

Lemma run_scroll_down w :
  default (JStr "") (o !! "command") = JStr "scroll_down" ->
  process_message json_loads m w =
    (Return tt,
     match gui_scroll (-3) (screen w) with
     | (Return _, h') =>
         World (count_command (stats w)) h' (socket w)
           (trace w ++ [HostCall (Scroll (-3)); Printed LogScrollDown])
     | (Raise e, h') =>
         World (count_command (stats w)) h' (socket w)
           (trace w ++ [HostCall (Scroll (-3)); Printed (handler_line e)])
     end).
Proof. intros Hc. enter_frame Hl Ht. rewrite Hc. finish_run. Qed.

Lemma run_unknown_command w :
  let command := default (JStr "") (o !! "command") in
  Py.eq_str command "leftclick" = false ->
  Py.eq_str command "rightclick" = false ->
  Py.eq_str command "doubleclick" = false ->
  Py.eq_str command "scroll_up" = false ->
  Py.eq_str command "scroll_down" = false ->
  process_message json_loads m w =
    (Return tt, World (count_command (stats w)) (screen w) (socket w) (trace w)).
Proof.
  intros command H1 H2 H3 H4 H5. enter_frame Hl Ht. fold command.
  rewrite H1, H2, H3, H4, H5. reflexivity.
Qed.

End Command.

Lemma run_status m o w :
  json_loads m = Return (JObj o) ->
  default (JStr "") (o !! "type") = JStr "status" ->
  process_message json_loads m w =
    (Return tt, World (count_command (stats w)) (screen w) (socket w)
                  (trace w ++ [Printed (LogDevice (default (JStr "Unknown") (o !! "device")))])).
Proof. intros Hl Ht. enter_frame Hl Ht. reflexivity. Qed.

Lemma run_unknown_type m o w :
  json_loads m = Return (JObj o) ->
  let msg_type := default (JStr "") (o !! "type") in
  Py.eq_str msg_type "move" = false ->
  Py.eq_str msg_type "command" = false ->
  Py.eq_str msg_type "status" = false ->
  process_message json_loads m w =
    (Return tt, World (count_command (stats w)) (screen w) (socket w) (trace w)).
Proof.
  intros Hl msg_type H1 H2 H3. unfold_program. rewrite Hl. cbn [Py.get].
  fold msg_type. rewrite H1, H2, H3. reflexivity.
Qed.

End Runs.

(** ** The claims on move frames *)

Section MoveClaims.
Context {H C : Type} `{!PyAutoGUI H} `{!WebSocket C}.
Variable json_loads : string -> outcome json.
Implicit Types (w : world H C) (m : string) (o : gmap string json).

Lemma type_of_field o (t : string) :
  o !! "type" = Some (JStr t) -> default (JStr "") (o !! "type") = JStr t.
Proof. now intros ->. Qed.

Lemma clamp_in_range (x : Z) (bound : positive) :
  0 <= clamp x 0 (Z.pos bound - 1) <= Z.pos bound - 1.
Proof. unfold clamp. lia. Qed.

(** What a move frame with scaled deltas [sx], [sy], not both zero, adds
    to the trace. *)
Lemma move_emitted m o (sx sy : Z) w :
  json_loads m = Return (JObj o) ->
  default (JStr "") (o !! "type") = JStr "move" ->
  scaled_delta (JObj o) "deltaX" = Return sx ->
  scaled_delta (JObj o) "deltaY" = Return sy ->
  ~ (sx = 0 /\ sy = 0) ->
  exists tail,
    emitted w (dispatch json_loads m w) =
      [HostCall Position; HostCall Size;
       HostCall (MoveTo (clamp ((gui_position (screen w)).1 + sx) 0
                               (Z.pos (gui_size (screen w)).1 - 1))
                        (clamp ((gui_position (screen w)).2 + sy) 0
                               (Z.pos (gui_size (screen w)).2 - 1))
                        (Some SMOOTH_DURATION))] ++ tail /\
    (tail = [] \/ exists e, tail = [Printed (handler_line e)]).
Proof.
  intros Hl Ht Hx Hy Hnz. unfold dispatch.
  rewrite (run_move json_loads m o Hl Ht sx sy w Hx Hy Hnz). cbn [snd].
  destruct (gui_moveTo _ _ _ _) as [[[]|e] h'].
  - exists []. rewrite app_nil_r, emitted_app. auto.
  - exists [Printed (handler_line e)]. rewrite emitted_app. eauto.
Qed.

(** Claim C1, amended: for every move frame whose deltaX and deltaY are
    numbers with finite double products by the acceleration factor, each
    scaled delta is that product truncated toward zero, and when the scaled
    deltas are not both zero the host is asked for the cursor position and
    the screen size and then told to move to
    [clamp(current + scaled, 0, bound - 1)] on each axis, a target inside
    the screen. *)
Theorem move_scaled_and_clamped m o (dx dy : json) (px py : spec_float) w :
  json_loads m = Return (JObj o) ->
  o !! "type" = Some (JStr "move") ->
  o !! "deltaX" = Some dx -> o !! "deltaY" = Some dy ->
  numeric dx -> numeric dy ->
  Py.mul_float dx MOUSE_ACCELERATION = Return px -> finite px = true ->
  Py.mul_float dy MOUSE_ACCELERATION = Return py -> finite py = true ->
  moved_as_claimed o dx dy w (dispatch json_loads m w).
Proof.
  intros Hl Ht Hdx Hdy _ _ Hpx Hfx Hpy Hfy.
  pose proof (scaled_delta_truncates o "deltaX" dx px Hdx Hpx Hfx) as Hx.
  pose proof (scaled_delta_truncates o "deltaY" dy py Hdy Hpy Hfy) as Hy.
  exists (SFtrunc px), (SFtrunc py).
  split; [exact Hx|]. split; [now exists px|].
  split; [exact Hy|]. split; [now exists py|].
  intros Hnz new_x new_y.
  destruct (move_emitted m o _ _ w Hl (type_of_field o _ Ht) Hx Hy Hnz)
    as (tail & -> & Htail).
  split; [|split; apply clamp_in_range].
  destruct Htail as [-> | [e ->]]; reflexivity.
Qed.

(** Claim C2, amended: for every move frame whose deltaX and deltaY are
    numbers with finite double products by the acceleration factor, the
    target commanded to the host is
    [clamp(current + trunc(delta * accelerationFactor), 0, bound - 1)] on
    each axis independently, where trunc is truncation toward zero; no
    target is commanded exactly when both truncated products are zero. *)
Theorem target_truncated m o (dx dy : json) (px py : spec_float) w :
  json_loads m = Return (JObj o) ->
  o !! "type" = Some (JStr "move") ->
  o !! "deltaX" = Some dx -> o !! "deltaY" = Some dy ->
  numeric dx -> numeric dy ->
  Py.mul_float dx MOUSE_ACCELERATION = Return px -> finite px = true ->
  Py.mul_float dy MOUSE_ACCELERATION = Return py -> finite py = true ->
  target_follows SFtrunc px py w (dispatch json_loads m w) /\
  (commanded_target (emitted w (dispatch json_loads m w)) = None <->
   SFtrunc px = 0 /\ SFtrunc py = 0).
Proof.
  intros Hl Ht Hdx Hdy _ _ Hpx Hfx Hpy Hfy.
  pose proof (scaled_delta_truncates o "deltaX" dx px Hdx Hpx Hfx) as Hx.
  pose proof (scaled_delta_truncates o "deltaY" dy py Hdy Hpy Hfy) as Hy.
  apply type_of_field in Ht. unfold target_follows.
  destruct (decide (SFtrunc px = 0 /\ SFtrunc py = 0)) as [[Zx Zy]|Hnz].
  - rewrite Zx in Hx. rewrite Zy in Hy. unfold dispatch.
    rewrite (run_move_idle json_loads m o Hl Ht w Hx Hy). cbn [snd].
    rewrite emitted_nil. split; [discriminate|]. split; auto.
  - destruct (move_emitted m o _ _ w Hl Ht Hx Hy Hnz) as (tail & -> & Htail).
    assert (Hlast : forall t,
              commanded_target
                ([HostCall Position; HostCall Size; HostCall t] ++ tail) =
              commanded_target [HostCall t]).
    { intros t. destruct Htail as [-> | [e ->]]; reflexivity. }
    rewrite Hlast. cbn. split.
    + intros t [= <-]. reflexivity.
    + split; [discriminate|tauto].
Qed.

(** Claim C6: a move frame whose deltaX and deltaY are both zero (the
    integer 0 or a floating-point zero) leaves movesApplied unchanged and
    makes no call on the host at all: no move, no read of the cursor
    position or of the screen size. *)
Theorem zero_move_is_idle m o (dx dy : json) w :
  json_loads m = Return (JObj o) ->
  o !! "type" = Some (JStr "move") ->
  o !! "deltaX" = Some dx -> o !! "deltaY" = Some dy ->
  zero_number dx -> zero_number dy ->
  movements (stats (dispatch json_loads m w)) = movements (stats w) /\
  host_calls (emitted w (dispatch json_loads m w)) = [] /\
  screen (dispatch json_loads m w) = screen w.
Proof.
  intros Hl Ht Hdx Hdy Zx Zy. unfold dispatch.
  rewrite (run_move_idle json_loads m o Hl (type_of_field o _ Ht) w
             (scaled_delta_zero o _ dx Hdx Zx) (scaled_delta_zero o _ dy Hdy Zy)).
  cbn [snd]. rewrite emitted_nil. auto.
Qed.

End MoveClaims.


(** ** The claims on counters, replies and failures *)

Section DispatchClaims.
Context {H C : Type} `{!PyAutoGUI H} `{!WebSocket C}.
Variable json_loads : string -> outcome json.
Implicit Types (w : world H C) (m : string) (o : gmap string json).

(** The four ways one dispatch changes the counters. *)
Lemma dispatch_counters_step m w :
  counters_step (stats w) (stats (dispatch json_loads m w)).
Proof.
  unfold counters_step, dispatch. unfold_program.
  repeat (case_match; simplify_eq/=); auto.
Qed.

Lemma dispatch_object_counted m o w :
  json_loads m = Return (JObj o) ->
  commands (stats (dispatch json_loads m w)) = commands (stats w) + 1.
Proof.
  intros Hl. unfold dispatch. unfold_program. rewrite Hl.
  repeat (case_match; simplify_eq/=); reflexivity.
Qed.

Lemma counters_step_within (s s' : Stats) :
  counters_step s s' -> within_commands s -> within_commands s'.
Proof.
  unfold within_commands.
  intros [-> | [-> | [-> | ->]]]; cbn; lia.
Qed.

Lemma receive_within (ms : list string) w :
  within_commands (stats w) -> within_commands (stats (receive json_loads ms w)).
Proof.
  revert w. induction ms as [|m ms IH]; intros w Hw; [exact Hw|].
  rewrite receive_cons. apply IH.
  exact (counters_step_within _ _ (dispatch_counters_step m w) Hw).
Qed.

Lemma scaled_delta_insert_zero o (key k : string) :
  o !! key = None ->
  scaled_delta (JObj (<[key := JInt 0]> o)) k = scaled_delta (JObj o) k.
Proof.
  intros Hk. destruct (decide (key = k)) as [<-|Hne].
  - rewrite (scaled_delta_absent o key Hk).
    apply (scaled_delta_zero _ key (JInt 0)); [apply lookup_insert_eq|exact I].
  - unfold scaled_delta. cbn [Py.get]. now rewrite lookup_insert_ne.
Qed.

(** A move frame in which a delta is not a number ends in the handler,
    after the count and before any call. *)
Lemma move_not_a_number_run m o (key : string) (v : json) w :
  json_loads m = Return (JObj o) ->
  default (JStr "") (o !! "type") = JStr "move" ->
  key = "deltaX" \/ key = "deltaY" ->
  o !! key = Some v -> not_a_number v ->
  exists e, process_message json_loads m w =
    (Return tt, World (count_command (stats w)) (screen w) (socket w)
                  (trace w ++ [Printed (handler_line e)])).
Proof.
  intros Hl Ht Hkey Hk Hv.
  pose proof (scaled_delta_not_a_number o key v Hk Hv) as Hraise.
  destruct Hkey as [-> | ->].
  - eexists. exact (run_move_raise_x json_loads m o Hl Ht _ w Hraise).
  - destruct (scaled_delta (JObj o) "deltaX") as [sx|e] eqn:Hx.
    + eexists. exact (run_move_raise_y json_loads m o Hl Ht sx _ w Hx Hraise).
    + eexists. exact (run_move_raise_x json_loads m o Hl Ht _ w Hx).
Qed.

(** Claim C3, amended: a move frame in which deltaX or deltaY is absent or
    not a number never raises out of the dispatcher.  An absent field is
    treated as 0 and the frame is dispatched as a move with that delta
    equal to 0.  A field holding a string, null, an array or an object is
    not coerced: the frame is counted, commandsReceived growing by one and
    movesApplied and clicksApplied by nothing, and dropped, with no call on
    the host and no reply.  A boolean counts as the integer 1 or 0. *)
Theorem malformed_delta_handled m o (key : string) w :
  json_loads m = Return (JObj o) ->
  o !! "type" = Some (JStr "move") ->
  key = "deltaX" \/ key = "deltaY" ->
  (process_message json_loads m w).1 = Return tt /\
  (o !! key = None -> treated_as_zero json_loads m o key w) /\
  (forall v, o !! key = Some v -> not_a_number v ->
     dropped_after_count w (dispatch json_loads m w)) /\
  (forall b, o !! key = Some (JBool b) ->
     scaled_delta (JObj o) key = Return (Z.b2z b)).
Proof.
  intros Hl Ht Hkey.
  split; [apply process_message_returns|].
  split; [|split].
  - intros Hk. split; [exact (scaled_delta_absent o key Hk)|].
    intros m0 Hl0.
    assert (Hty : <[key := JInt 0]> o !! "type" = o !! "type").
    { apply lookup_insert_ne. destruct Hkey as [-> | ->]; discriminate. }
    unfold process_message, try_except, bind, lift.
    rewrite Hl, Hl0. cbn [Py.get]. rewrite Hty, Ht.
    cbn [default from_option id Py.eq_str String.eqb Ascii.eqb Bool.eqb].
    now rewrite !(scaled_delta_insert_zero o key _ Hk).
  - intros v Hk Hv.
    destruct (move_not_a_number_run m o key v w Hl ltac:(now rewrite Ht) Hkey Hk Hv)
      as [e Hrun].
    unfold dropped_after_count, counters_add, dispatch.
    rewrite Hrun. cbn [snd]. rewrite emitted_app.
    cbn [stats commands movements clicks count_command].
    repeat split; try reflexivity; lia.
  - intros b Hk. exact (scaled_delta_bool o key b Hk).
Qed.

(** Claim C4, amended: every frame that decodes to a JSON object
    increments commandsReceived by exactly one, whatever its type, its
    command string or the outcome of the injection call; hence the receive
    loop over 1000 such frames (over any number of them) increments
    commandsReceived by exactly their number. *)
Theorem object_frames_counted (ms : list string) w :
  Forall (decodes_to_object json_loads) ms ->
  Forall (fun m => forall w0, counted_once json_loads m w0) ms /\
  commands (stats (receive json_loads ms w)) =
    commands (stats w) + Z.of_nat (length ms).
Proof.
  intros Hms. split.
  - eapply Forall_impl; [exact Hms|].
    intros m [o Hl] w0. exact (dispatch_object_counted m o w0 Hl).
  - revert w. induction Hms as [|m ms [o Hl] _ IH]; intros w.
    + cbn. lia.
    + rewrite receive_cons, IH, (dispatch_object_counted m o w Hl).
      cbn [length]. lia.
Qed.

(** Claim C5, amended: for every command frame, the command "leftclick"
    yields exactly one reply frame, of type "response" with message
    "Click executed", provided the host's click call returns; every other
    command (rightclick, doubleclick, scroll_up, scroll_down, unrecognized
    or absent) yields no reply frame. *)
Theorem command_reply m o w :
  json_loads m = Return (JObj o) ->
  o !! "type" = Some (JStr "command") ->
  (Py.eq_str (default (JStr "") (o !! "command")) "leftclick" = true ->
   (gui_click (screen w)).1 = Return tt) ->
  replied_as_claimed (default (JStr "") (o !! "command")) w
    (dispatch json_loads m w).
Proof.
  intros Hl Ht Hclick. unfold replied_as_claimed, dispatch.
  assert (Ht' : default (JStr "") (o !! "type") = JStr "command") by now rewrite Ht.
  set (command := default (JStr "") (o !! "command")) in *.
  destruct (Py.eq_str command "leftclick") eqn:E1.
  { rewrite (run_leftclick json_loads m o Hl Ht' w (proj1 (eq_str_true _ _) E1)).
    specialize (Hclick eq_refl). cbn [snd].
    destruct (gui_click (screen w)) as [[[]|e] h']; [|discriminate Hclick].
    destruct (ws_send response_frame (socket w)) as [[[]|e] c'];
      rewrite emitted_app; reflexivity. }
  destruct (Py.eq_str command "rightclick") eqn:E2.
  { rewrite (run_rightclick json_loads m o Hl Ht' w (proj1 (eq_str_true _ _) E2)).
    cbn [snd]. destruct (gui_rightClick (screen w)) as [[[]|e] h'];
      rewrite emitted_app; reflexivity. }
  destruct (Py.eq_str command "doubleclick") eqn:E3.
  { rewrite (run_doubleclick json_loads m o Hl Ht' w (proj1 (eq_str_true _ _) E3)).
    cbn [snd]. destruct (gui_doubleClick (screen w)) as [[[]|e] h'];
      rewrite emitted_app; reflexivity. }
  destruct (Py.eq_str command "scroll_up") eqn:E4.
  { rewrite (run_scroll_up json_loads m o Hl Ht' w (proj1 (eq_str_true _ _) E4)).
    cbn [snd]. destruct (gui_scroll 3 (screen w)) as [[[]|e] h'];
      rewrite emitted_app; reflexivity. }
  destruct (Py.eq_str command "scroll_down") eqn:E5.
  { rewrite (run_scroll_down json_loads m o Hl Ht' w (proj1 (eq_str_true _ _) E5)).
    cbn [snd]. destruct (gui_scroll (-3) (screen w)) as [[[]|e] h'];
      rewrite emitted_app; reflexivity. }
  rewrite (run_unknown_command json_loads m o Hl Ht' w E1 E2 E3 E4 E5).
  cbn [snd]. now rewrite emitted_nil.
Qed.

(** Claim C7: a frame whose decoding fails leaves the three counters
    unchanged, produces no reply, makes no call on the host and does not
    raise out of the dispatcher: one line is printed and the receive loop
    goes on with the next frame. *)
Theorem undecodable_frame_dropped m (e : exn) (rest : list string) w :
  json_loads m = Raise e ->
  (process_message json_loads m w).1 = Return tt /\
  stats (dispatch json_loads m w) = stats w /\
  emitted w (dispatch json_loads m w) = [Printed (handler_line e)] /\
  replies (emitted w (dispatch json_loads m w)) = [] /\
  host_calls (emitted w (dispatch json_loads m w)) = [] /\
  screen (dispatch json_loads m w) = screen w /\
  for_each (m :: rest) (process_message json_loads) w =
    for_each rest (process_message json_loads) (dispatch json_loads m w).
Proof.
  intros Hl. split; [apply process_message_returns|].
  repeat split; try apply for_each_step; unfold dispatch;
    rewrite (run_undecodable json_loads m e w Hl); cbn [snd];
    rewrite ?emitted_app; reflexivity.
Qed.

(** Claim C10: a frame that decodes to a value that is not an object (a
    number, a string, an array, a boolean, null) leaves the three counters
    unchanged, commandsReceived included, produces no reply, makes no call
    on the host and does not raise out of the dispatcher. *)
Theorem non_object_frame_dropped m (v : json) (rest : list string) w :
  json_loads m = Return v -> not_an_object v ->
  (process_message json_loads m w).1 = Return tt /\
  stats (dispatch json_loads m w) = stats w /\
  emitted w (dispatch json_loads m w) = [Printed (LogProcessingError AttributeError)] /\
  replies (emitted w (dispatch json_loads m w)) = [] /\
  host_calls (emitted w (dispatch json_loads m w)) = [] /\
  screen (dispatch json_loads m w) = screen w /\
  for_each (m :: rest) (process_message json_loads) w =
    for_each rest (process_message json_loads) (dispatch json_loads m w).
Proof.
  intros Hl Hv. split; [apply process_message_returns|].
  repeat split; try apply for_each_step; unfold dispatch;
    rewrite (run_not_object json_loads m v w Hl Hv); cbn [snd];
    rewrite ?emitted_app; reflexivity.
Qed.

(** Claim C8: when the injection call of a frame raises, no exception
    leaves the dispatcher, no reply frame is sent, the receive loop goes on
    with the next frame, and the frame has been counted: commandsReceived is
    one more than before while movesApplied and clicksApplied are
    unchanged. *)
Theorem injection_failure_recovered m o (e : exn) (rest : list string) w :
  json_loads m = Return (JObj o) ->
  injection_fails o w e ->
  (process_message json_loads m w).1 = Return tt /\
  replies (emitted w (dispatch json_loads m w)) = [] /\
  commands (stats (dispatch json_loads m w)) = commands (stats w) + 1 /\
  movements (stats (dispatch json_loads m w)) = movements (stats w) /\
  clicks (stats (dispatch json_loads m w)) = clicks (stats w) /\
  for_each (m :: rest) (process_message json_loads) w =
    for_each rest (process_message json_loads) (dispatch json_loads m w).
Proof.
  intros Hl Hfail.
  assert (Hrun : stats (dispatch json_loads m w) = count_command (stats w) /\
                 replies (emitted w (dispatch json_loads m w)) = []).
  { unfold dispatch.
    destruct Hfail as [sx sy Ht Hx Hy Hnz Hf|Ht Hc Hf|Ht Hc Hf|Ht Hc Hf|Ht Hc Hf|Ht Hc Hf].
    all: first
      [ rewrite (run_move json_loads m o Hl Ht sx sy w Hx Hy Hnz); unfold clamp
      | rewrite (run_leftclick json_loads m o Hl Ht w Hc)
      | rewrite (run_rightclick json_loads m o Hl Ht w Hc)
      | rewrite (run_doubleclick json_loads m o Hl Ht w Hc)
      | rewrite (run_scroll_up json_loads m o Hl Ht w Hc)
      | rewrite (run_scroll_down json_loads m o Hl Ht w Hc) ].
    all: cbn [snd]; cbn [fst] in Hf.
    all: match type of Hf with
         | (?call).1 = _ => destruct call as [[[]|e'] h']; [discriminate Hf|]
         end.
    all: rewrite ?emitted_app; split; reflexivity. }
  destruct Hrun as [Hstats Hrep].
  split; [apply process_message_returns|]. split; [exact Hrep|].
  rewrite Hstats. cbn [commands movements clicks count_command].
  repeat split; try reflexivity. apply for_each_step.
Qed.

(** Claim C9: each dispatch either leaves the counters alone, or adds one
    to commandsReceived and at most one to movesApplied and clicksApplied
    together; hence from all-zero counters
    movesApplied + clicksApplied <= commandsReceived holds after every
    sequence of dispatched frames. *)
Theorem counters_invariant (ms : list string) m w :
  counters_step (stats w) (stats (dispatch json_loads m w)) /\
  (stats w = stats0 -> within_commands (stats (receive json_loads ms w))).
Proof.
  split; [apply dispatch_counters_step|].
  intros Hw. apply receive_within. rewrite Hw. unfold within_commands. cbn. lia.
Qed.

End DispatchClaims.

(** ** The dispatcher on the reference host *)

Lemma mixed_decodes (n : nat) :
  Forall (decodes_to_object Desk.decode) (Desk.mixed n).
Proof.
  induction n as [|n IH]; cbn [Desk.mixed]; [constructor|].
  repeat (constructor; [eexists; vm_compute; reflexivity|]). exact IH.
Qed.

(** The scenario of the specification: a large negative delta from (5, 5)
    on a 1920 x 1080 screen is clamped to the target (0, 5). *)
Lemma move_scaled_and_clamped_witness :
  let o := Desk.move_fields (JInt (-999999)) (JInt 0) in
  let w := Desk.start 5 5 1920 1080 in
  let px := S754_finite true 5153955601239245 (-32) in
  let py := S754_zero false in
  (Desk.decode "move -999999 0" = Return (JObj o) /\
   o !! "type" = Some (JStr "move") /\
   o !! "deltaX" = Some (JInt (-999999)) /\ o !! "deltaY" = Some (JInt 0) /\
   numeric (JInt (-999999)) /\ numeric (JInt 0) /\
   Py.mul_float (JInt (-999999)) MOUSE_ACCELERATION = Return px /\ finite px = true /\
   Py.mul_float (JInt 0) MOUSE_ACCELERATION = Return py /\ finite py = true) /\
  moved_as_claimed o (JInt (-999999)) (JInt 0) w
    (dispatch Desk.decode "move -999999 0" w) /\
  host_calls (trace (dispatch Desk.decode "move -999999 0" w)) =
    [Position; Size; MoveTo 0 5 (Some SMOOTH_DURATION)].
Proof.
  intros o w px py.
  assert (Hyp : Desk.decode "move -999999 0" = Return (JObj o) /\
   o !! "type" = Some (JStr "move") /\
   o !! "deltaX" = Some (JInt (-999999)) /\ o !! "deltaY" = Some (JInt 0) /\
   numeric (JInt (-999999)) /\ numeric (JInt 0) /\
   Py.mul_float (JInt (-999999)) MOUSE_ACCELERATION = Return px /\ finite px = true /\
   Py.mul_float (JInt 0) MOUSE_ACCELERATION = Return py /\ finite py = true)
    by by_evaluation.
  split; [exact Hyp|].
  destruct Hyp as (H1 & H2 & H3 & H4 & H5 & H6 & H7 & H8 & H9 & H10).
  split; [|vm_compute; reflexivity].
  exact (move_scaled_and_clamped Desk.decode _ o _ _ px py w H1 H2 H3 H4 H5 H6 H7 H8 H9 H10).
Defined.

(** Claim C1 as stated fails on an integer delta too large for a double:
    [10^400 * 1.2] raises [OverflowError], no scaled delta is computed and
    no move is commanded, although both fields are numeric. *)
Lemma overflowing_delta_not_moved :
  let o := Desk.move_fields (JInt (10 ^ 400)) (JInt 0) in
  let w := Desk.start 5 5 1920 1080 in
  (Desk.decode "move 10^400 0" = Return (JObj o) /\
   o !! "type" = Some (JStr "move") /\
   o !! "deltaX" = Some (JInt (10 ^ 400)) /\ o !! "deltaY" = Some (JInt 0) /\
   numeric (JInt (10 ^ 400)) /\ numeric (JInt 0)) /\
  ~ moved_as_claimed o (JInt (10 ^ 400)) (JInt 0) w
      (dispatch Desk.decode "move 10^400 0" w) /\
  scaled_delta (JObj o) "deltaX" = Raise OverflowError /\
  trace (dispatch Desk.decode "move 10^400 0" w) =
    [Printed (LogProcessingError OverflowError)].
Proof.
  intros o w. split; [by_evaluation|]. split; [|by_evaluation].
  intros (sx & sy & Hx & _). vm_compute in Hx. discriminate Hx.
Qed.

(** A delta of 3 from (100, 100): the target is (103, 100). *)
Lemma target_truncated_witness :
  let o := Desk.move_fields (JInt 3) (JInt 0) in
  let w := Desk.start 100 100 1920 1080 in
  let px := Desk.three_scaled in
  let py := S754_zero false in
  (Desk.decode "move 3 0" = Return (JObj o) /\
   o !! "type" = Some (JStr "move") /\
   o !! "deltaX" = Some (JInt 3) /\ o !! "deltaY" = Some (JInt 0) /\
   numeric (JInt 3) /\ numeric (JInt 0) /\
   Py.mul_float (JInt 3) MOUSE_ACCELERATION = Return px /\ finite px = true /\
   Py.mul_float (JInt 0) MOUSE_ACCELERATION = Return py /\ finite py = true) /\
  (target_follows SFtrunc px py w (dispatch Desk.decode "move 3 0" w) /\
   (commanded_target (emitted w (dispatch Desk.decode "move 3 0" w)) = None <->
    SFtrunc px = 0 /\ SFtrunc py = 0)) /\
  commanded_target (emitted w (dispatch Desk.decode "move 3 0" w)) = Some (103, 100).
Proof.
  intros o w px py.
  assert (Hyp : Desk.decode "move 3 0" = Return (JObj o) /\
   o !! "type" = Some (JStr "move") /\
   o !! "deltaX" = Some (JInt 3) /\ o !! "deltaY" = Some (JInt 0) /\
   numeric (JInt 3) /\ numeric (JInt 0) /\
   Py.mul_float (JInt 3) MOUSE_ACCELERATION = Return px /\ finite px = true /\
   Py.mul_float (JInt 0) MOUSE_ACCELERATION = Return py /\ finite py = true)
    by by_evaluation.
  split; [exact Hyp|].
  destruct Hyp as (H1 & H2 & H3 & H4 & H5 & H6 & H7 & H8 & H9 & H10).
  split; [|vm_compute; reflexivity].
  exact (target_truncated Desk.decode _ o _ _ px py w H1 H2 H3 H4 H5 H6 H7 H8 H9 H10).
Defined.

(** Claim C2 as stated fails on a delta of 3: the double product is
    3.5999999999999996, which rounds to 4, but the commanded target is
    100 + 3 = 103, not 104. *)
Lemma rounded_target_refuted :
  let o := Desk.move_fields (JInt 3) (JInt 0) in
  let w := Desk.start 100 100 1920 1080 in
  let px := Desk.three_scaled in
  let py := S754_zero false in
  (Desk.decode "move 3 0" = Return (JObj o) /\
   o !! "type" = Some (JStr "move") /\
   o !! "deltaX" = Some (JInt 3) /\ o !! "deltaY" = Some (JInt 0) /\
   Py.mul_float (JInt 3) MOUSE_ACCELERATION = Return px /\
   Py.mul_float (JInt 0) MOUSE_ACCELERATION = Return py) /\
  ~ target_follows SFround px py w (dispatch Desk.decode "move 3 0" w) /\
  commanded_target (emitted w (dispatch Desk.decode "move 3 0" w)) = Some (103, 100) /\
  axis_target SFround 100 px 1920 = 104.
Proof.
  intros o w px py. split; [by_evaluation|]. split; [|by_evaluation].
  intros Hf. specialize (Hf (103, 100) ltac:(vm_compute; reflexivity)).
  vm_compute in Hf. discriminate Hf.
Qed.

(** A move frame without deltaX: the field counts as 0. *)
Lemma malformed_delta_handled_witness :
  let o : gmap string json := <["type" := JStr "move"]> (<["deltaY" := JInt 5]> ∅) in
  let w := Desk.start 100 100 1920 1080 in
  (Desk.decode "move - 5" = Return (JObj o) /\
   o !! "type" = Some (JStr "move") /\
   ("deltaX" = "deltaX" \/ "deltaX" = "deltaY")) /\
  ((process_message Desk.decode "move - 5" w).1 = Return tt /\
   (o !! "deltaX" = None -> treated_as_zero Desk.decode "move - 5" o "deltaX" w) /\
   (forall v, o !! "deltaX" = Some v -> not_a_number v ->
      dropped_after_count w (dispatch Desk.decode "move - 5" w)) /\
   (forall b, o !! "deltaX" = Some (JBool b) ->
      scaled_delta (JObj o) "deltaX" = Return (Z.b2z b))) /\
  o !! "deltaX" = None /\
  process_message Desk.decode "move - 5" w = process_message Desk.decode "move 0 5" w.
Proof.
  intros o w.
  assert (Hyp : Desk.decode "move - 5" = Return (JObj o) /\
                o !! "type" = Some (JStr "move") /\
                ("deltaX" = "deltaX" \/ "deltaX" = "deltaY")).
  { split; [vm_compute; reflexivity|]. split; [vm_compute; reflexivity|].
    left. reflexivity. }
  split; [exact Hyp|]. destruct Hyp as (H1 & H2 & H3).
  split; [|by_evaluation].
  exact (malformed_delta_handled Desk.decode _ o "deltaX" w H1 H2 H3).
Defined.

(** Claim C3 as stated fails on a string: [deltaX = "abc"] is not treated
    as 0.  The product raises [TypeError] and the frame is dropped, whereas
    the same frame with [deltaX = 0] moves the cursor by (0, 6). *)
Lemma string_delta_not_zeroed :
  let o := Desk.move_fields (JStr "abc") (JInt 5) in
  let w := Desk.start 100 100 1920 1080 in
  (Desk.decode "move abc 5" = Return (JObj o) /\
   o !! "type" = Some (JStr "move") /\
   o !! "deltaX" = Some (JStr "abc") /\ ~ numeric (JStr "abc") /\
   Desk.decode "move 0 5" = Return (JObj (<["deltaX" := JInt 0]> o))) /\
  ~ treated_as_zero Desk.decode "move abc 5" o "deltaX" w /\
  scaled_delta (JObj o) "deltaX" = Raise TypeError /\
  host_calls (trace (dispatch Desk.decode "move abc 5" w)) = [] /\
  host_calls (trace (dispatch Desk.decode "move 0 5" w)) =
    [Position; Size; MoveTo 100 106 (Some SMOOTH_DURATION)].
Proof.
  intros o w. split.
  { repeat split; try (vm_compute; reflexivity). intros []. }
  split; [|by_evaluation].
  intros [Hs _]. vm_compute in Hs. discriminate Hs.
Qed.

(** A thousand frames of mixed types are counted a thousand times. *)
Lemma object_frames_counted_witness :
  let w := Desk.start 100 100 1920 1080 in
  Forall (decodes_to_object Desk.decode) (Desk.mixed 250) /\
  (Forall (fun m => forall w0, counted_once Desk.decode m w0) (Desk.mixed 250) /\
   commands (stats (receive Desk.decode (Desk.mixed 250) w)) =
     commands (stats w) + Z.of_nat (length (Desk.mixed 250))) /\
  length (Desk.mixed 250) = 1000%nat.
Proof.
  intros w. split; [exact (mixed_decodes 250)|].
  split; [|vm_compute; reflexivity].
  exact (object_frames_counted Desk.decode (Desk.mixed 250) w (mixed_decodes 250)).
Defined.

(** Claim C4 as stated fails on a frame that decodes to a number: the text
    [42] is decoded successfully and commandsReceived is not incremented. *)
Lemma decoded_number_not_counted :
  let w := Desk.start 100 100 1920 1080 in
  Desk.decode "42" = Return (JInt 42) /\
  ~ counted_once Desk.decode "42" w /\
  stats (dispatch Desk.decode "42" w) = stats w.
Proof.
  intros w. split; [by_evaluation|]. split; [|by_evaluation].
  intros Hc. vm_compute in Hc. discriminate Hc.
Qed.

(** A left click away from the corner is answered once. *)
Lemma command_reply_witness :
  let o := Desk.command_fields "leftclick" in
  let w := Desk.start 100 100 1920 1080 in
  (Desk.decode "leftclick" = Return (JObj o) /\
   o !! "type" = Some (JStr "command") /\
   (Py.eq_str (default (JStr "") (o !! "command")) "leftclick" = true ->
    (gui_click (screen w)).1 = Return tt)) /\
  replied_as_claimed (default (JStr "") (o !! "command")) w
    (dispatch Desk.decode "leftclick" w) /\
  replies (trace (dispatch Desk.decode "leftclick" w)) = [response_frame].
Proof.
  intros o w.
  assert (Hyp : Desk.decode "leftclick" = Return (JObj o) /\
   o !! "type" = Some (JStr "command") /\
   (Py.eq_str (default (JStr "") (o !! "command")) "leftclick" = true ->
    (gui_click (screen w)).1 = Return tt)).
  { split; [vm_compute; reflexivity|]. split; [vm_compute; reflexivity|].
    intros _. vm_compute. reflexivity. }
  split; [exact Hyp|]. destruct Hyp as (H1 & H2 & H3).
  split; [|vm_compute; reflexivity].
  exact (command_reply Desk.decode _ o w H1 H2 H3).
Defined.

(** Claim C5 as stated fails when the click is refused: with the cursor in
    the fail-safe corner [pyautogui.click()] raises, and the leftclick frame
    yields no reply. *)
Lemma refused_click_not_answered :
  let o := Desk.command_fields "leftclick" in
  let w := Desk.start 0 0 1920 1080 in
  (Desk.decode "leftclick" = Return (JObj o) /\
   o !! "type" = Some (JStr "command") /\
   o !! "command" = Some (JStr "leftclick") /\
   (gui_click (screen w)).1 = Raise FailSafeException) /\
  ~ replied_as_claimed (default (JStr "") (o !! "command")) w
      (dispatch Desk.decode "leftclick" w) /\
  replies (emitted w (dispatch Desk.decode "leftclick" w)) = [] /\
  trace (dispatch Desk.decode "leftclick" w) =
    [HostCall Click; Printed (LogProcessingError FailSafeException)].
Proof.
  intros o w. split; [by_evaluation|]. split; [|by_evaluation].
  intros Hr. vm_compute in Hr. discriminate Hr.
Qed.

(** A frame of zeros, one integer and one negative floating-point zero. *)
Lemma zero_move_is_idle_witness :
  let o := Desk.move_fields (JInt 0) (JFloat (S754_zero true)) in
  let w := Desk.start 100 100 1920 1080 in
  (Desk.decode "move 0 0" = Return (JObj o) /\
   o !! "type" = Some (JStr "move") /\
   o !! "deltaX" = Some (JInt 0) /\ o !! "deltaY" = Some (JFloat (S754_zero true)) /\
   zero_number (JInt 0) /\ zero_number (JFloat (S754_zero true))) /\
  movements (stats (dispatch Desk.decode "move 0 0" w)) = movements (stats w) /\
  host_calls (emitted w (dispatch Desk.decode "move 0 0" w)) = [] /\
  screen (dispatch Desk.decode "move 0 0" w) = screen w.
Proof.
  intros o w.
  assert (Hyp : Desk.decode "move 0 0" = Return (JObj o) /\
   o !! "type" = Some (JStr "move") /\
   o !! "deltaX" = Some (JInt 0) /\ o !! "deltaY" = Some (JFloat (S754_zero true)) /\
   zero_number (JInt 0) /\ zero_number (JFloat (S754_zero true))) by by_evaluation.
  split; [exact Hyp|]. destruct Hyp as (H1 & H2 & H3 & H4 & H5 & H6).
  exact (zero_move_is_idle Desk.decode _ o _ _ w H1 H2 H3 H4 H5 H6).
Defined.

(** The scenario of the specification: a left click and then a right click
    away from the corner count two clicks and send one reply. *)
Example two_clicks_one_reply :
  let w := receive Desk.decode ["leftclick"; "rightclick"] (Desk.start 100 100 1920 1080) in
  stats w = mkStats 2 0 2 /\ replies (trace w) = [response_frame].
Proof. vm_compute. split; reflexivity. Qed.

(** A text that is not JSON, followed by a left click. *)
Lemma undecodable_frame_dropped_witness :
  let w := Desk.start 100 100 1920 1080 in
  Desk.decode "{" = Raise JSONDecodeError /\
  (process_message Desk.decode "{" w).1 = Return tt /\
  stats (dispatch Desk.decode "{" w) = stats w /\
  emitted w (dispatch Desk.decode "{" w) = [Printed LogInvalidJSON] /\
  replies (emitted w (dispatch Desk.decode "{" w)) = [] /\
  host_calls (emitted w (dispatch Desk.decode "{" w)) = [] /\
  screen (dispatch Desk.decode "{" w) = screen w /\
  for_each ["{"; "leftclick"] (process_message Desk.decode) w =
    for_each ["leftclick"] (process_message Desk.decode) (dispatch Desk.decode "{" w).
Proof.
  intros w.
  assert (Hyp : Desk.decode "{" = Raise JSONDecodeError) by (vm_compute; reflexivity).
  split; [exact Hyp|].
  exact (undecodable_frame_dropped Desk.decode "{" JSONDecodeError ["leftclick"] w Hyp).
Defined.

(** The bare number 42, followed by a left click. *)
Lemma non_object_frame_dropped_witness :
  let w := Desk.start 100 100 1920 1080 in
  (Desk.decode "42" = Return (JInt 42) /\ not_an_object (JInt 42)) /\
  (process_message Desk.decode "42" w).1 = Return tt /\
  stats (dispatch Desk.decode "42" w) = stats w /\
  emitted w (dispatch Desk.decode "42" w) = [Printed (LogProcessingError AttributeError)] /\
  replies (emitted w (dispatch Desk.decode "42" w)) = [] /\
  host_calls (emitted w (dispatch Desk.decode "42" w)) = [] /\
  screen (dispatch Desk.decode "42" w) = screen w /\
  for_each ["42"; "leftclick"] (process_message Desk.decode) w =
    for_each ["leftclick"] (process_message Desk.decode) (dispatch Desk.decode "42" w).
Proof.
  intros w.
  assert (Hyp : Desk.decode "42" = Return (JInt 42) /\ not_an_object (JInt 42))
    by by_evaluation.
  split; [exact Hyp|]. destruct Hyp as (H1 & H2).
  exact (non_object_frame_dropped Desk.decode "42" (JInt 42) ["leftclick"] w H1 H2).
Defined.

(** A move of 3 with the cursor in the fail-safe corner: [moveTo] raises. *)
Lemma injection_failure_recovered_witness :
  let o := Desk.move_fields (JInt 3) (JInt 0) in
  let w := Desk.start 0 0 1920 1080 in
  (Desk.decode "move 3 0" = Return (JObj o) /\
   injection_fails o w FailSafeException) /\
  (process_message Desk.decode "move 3 0" w).1 = Return tt /\
  replies (emitted w (dispatch Desk.decode "move 3 0" w)) = [] /\
  commands (stats (dispatch Desk.decode "move 3 0" w)) = commands (stats w) + 1 /\
  movements (stats (dispatch Desk.decode "move 3 0" w)) = movements (stats w) /\
  clicks (stats (dispatch Desk.decode "move 3 0" w)) = clicks (stats w) /\
  for_each ["move 3 0"; "rightclick"] (process_message Desk.decode) w =
    for_each ["rightclick"] (process_message Desk.decode)
      (dispatch Desk.decode "move 3 0" w).
Proof.
  intros o w.
  assert (Hyp : Desk.decode "move 3 0" = Return (JObj o) /\
                injection_fails o w FailSafeException).
  { split; [vm_compute; reflexivity|].
    apply (fails_moveTo o w FailSafeException 3 0); try (vm_compute; reflexivity).
    intros [E _]. discriminate E. }
  split; [exact Hyp|]. destruct Hyp as (H1 & H2).
  exact (injection_failure_recovered Desk.decode "move 3 0" o FailSafeException
           ["rightclick"] w H1 H2).
Defined.

(** Twelve mixed frames from zeroed counters. *)
Lemma counters_invariant_witness :
  let w := Desk.start 100 100 1920 1080 in
  stats w = stats0 /\
  counters_step (stats w) (stats (dispatch Desk.decode "leftclick" w)) /\
  within_commands (stats (receive Desk.decode (Desk.mixed 3) w)).
Proof.
  intros w.
  assert (Hyp : stats w = stats0) by reflexivity.
  split; [exact Hyp|].
  destruct (counters_invariant Desk.decode (Desk.mixed 3) "leftclick" w) as [Hstep Hinv].
  split; [exact Hstep|exact (Hinv Hyp)].
Defined.

(** ** Further properties of the dispatcher *)

Lemma SFtrunc_small (p : spec_float) :
  Z.abs (SFnum p) < SFden p -> SFtrunc p = 0.
Proof.
  intros Hs. destruct (SFtrunc_toward_zero p) as [[Hlo _] _].
  pose proof (SFden_pos p). nia.
Qed.

Lemma quot_six_fifths (n : Z) :
  let s := Z.quot (6 * n) 5 in
  (n <> 0 -> s <> 0) /\ Z.abs n <= Z.abs s /\ 0 <= s * n.
Proof.
  cbv zeta. pose proof (Z.quot_rem' (6 * n) 5) as E.
  destruct (Z.le_gt_cases 0 n) as [Hn|Hn].
  - pose proof (Z.rem_bound_pos (6 * n) 5 ltac:(lia) ltac:(lia)). lia.
  - pose proof (Z.rem_bound_pos_neg (6 * n) 5 ltac:(lia) ltac:(lia)). lia.
Qed.

Section MoreDispatch.
Context {H C : Type} `{!PyAutoGUI H} `{!WebSocket C}.
Variable json_loads : string -> outcome json.
Implicit Types (w : world H C) (m : string) (o : gmap string json).

(** A frame whose type is absent or is none of "move", "command" and
    "status" adds one to commandsReceived and does nothing else:
    movesApplied and clicksApplied, the host, the connection and the trace
    are as before. *)
Theorem unknown_type_only_counted m o w :
  json_loads m = Return (JObj o) ->
  o !! "type" <> Some (JStr "move") ->
  o !! "type" <> Some (JStr "command") ->
  o !! "type" <> Some (JStr "status") ->
  commands (stats (dispatch json_loads m w)) = commands (stats w) + 1 /\
  movements (stats (dispatch json_loads m w)) = movements (stats w) /\
  clicks (stats (dispatch json_loads m w)) = clicks (stats w) /\
  screen (dispatch json_loads m w) = screen w /\
  socket (dispatch json_loads m w) = socket w /\
  trace (dispatch json_loads m w) = trace w.
Proof.
  intros Hl Hm Hc Hs. unfold dispatch.
  assert (Hne : forall t : string, t <> "" -> o !! "type" <> Some (JStr t) ->
            Py.eq_str (default (JStr "") (o !! "type")) t = false).
  { intros t Ht Hneq. destruct (Py.eq_str _ t) eqn:E; [|reflexivity].
    apply eq_str_true in E. destruct (o !! "type") as [v|] eqn:Ev; cbn in E.
    - subst v. now destruct Hneq.
    - injection E as E. now destruct Ht. }
  rewrite (run_unknown_type json_loads m o w Hl);
    [cbn; repeat split; reflexivity|..]; apply Hne; auto; discriminate.
Qed.

(** A status frame whose device label is text of printable ASCII
    characters, or is absent and then taken as "Unknown", adds one to
    commandsReceived and has its label printed; movesApplied and
    clicksApplied, the host and the connection are as before and nothing is
    sent.  (A label the console cannot encode makes [print] raise; such
    labels are outside this statement.) *)
Theorem status_frame_logged m o w :
  json_loads m = Return (JObj o) ->
  o !! "type" = Some (JStr "status") ->
  plain_label (default (JStr "Unknown") (o !! "device")) ->
  commands (stats (dispatch json_loads m w)) = commands (stats w) + 1 /\
  movements (stats (dispatch json_loads m w)) = movements (stats w) /\
  clicks (stats (dispatch json_loads m w)) = clicks (stats w) /\
  screen (dispatch json_loads m w) = screen w /\
  socket (dispatch json_loads m w) = socket w /\
  trace (dispatch json_loads m w) =
    trace w ++ [Printed (LogDevice (default (JStr "Unknown") (o !! "device")))].
Proof.
  intros Hl Ht _. unfold dispatch.
  rewrite (run_status json_loads m o w Hl (type_of_field o _ Ht)).
  cbn. repeat split; reflexivity.
Qed.

(** A click command whose host call returns makes exactly that one call on
    the host and adds one to clicksApplied (and to commandsReceived), for
    each of leftclick, rightclick and doubleclick, whether or not the reply
    of a leftclick can be sent. *)
Theorem click_counted_when_host_returns m o (call : host_call) (c : string) w :
  json_loads m = Return (JObj o) ->
  o !! "type" = Some (JStr "command") ->
  o !! "command" = Some (JStr c) ->
  click_command call = Some c ->
  (match call with
   | Click => gui_click (screen w)
   | RightClick => gui_rightClick (screen w)
   | _ => gui_doubleClick (screen w)
   end).1 = Return tt ->
  commands (stats (dispatch json_loads m w)) = commands (stats w) + 1 /\
  clicks (stats (dispatch json_loads m w)) = clicks (stats w) + 1 /\
  movements (stats (dispatch json_loads m w)) = movements (stats w) /\
  host_calls (emitted w (dispatch json_loads m w)) = [call].
Proof.
  intros Hl Ht Hc Hcall Hret. apply type_of_field in Ht.
  assert (Hc' : default (JStr "") (o !! "command") = JStr c) by now rewrite Hc.
  unfold dispatch.
  destruct call; try discriminate Hcall; injection Hcall as <-.
  - rewrite (run_leftclick json_loads m o Hl Ht w Hc'). cbn [snd].
    destruct (gui_click (screen w)) as [[[]|e] h']; [|discriminate Hret].
    destruct (ws_send response_frame (socket w)) as [[[]|e] c'];
      rewrite emitted_app; cbn; repeat split; reflexivity.
  - rewrite (run_rightclick json_loads m o Hl Ht w Hc'). cbn [snd].
    destruct (gui_rightClick (screen w)) as [[[]|e] h']; [|discriminate Hret].
    rewrite emitted_app; cbn; repeat split; reflexivity.
  - rewrite (run_doubleclick json_loads m o Hl Ht w Hc'). cbn [snd].
    destruct (gui_doubleClick (screen w)) as [[[]|e] h']; [|discriminate Hret].
    rewrite emitted_app; cbn; repeat split; reflexivity.
Qed.

(** When the reply to a leftclick cannot be sent, the click has been made
    and counted all the same; the failure of [send] is printed and does not
    leave the dispatcher. *)
Theorem unsent_reply_keeps_click m o (e : exn) (h' : H) (c' : C) w :
  json_loads m = Return (JObj o) ->
  o !! "type" = Some (JStr "command") ->
  o !! "command" = Some (JStr "leftclick") ->
  gui_click (screen w) = (Return tt, h') ->
  ws_send response_frame (socket w) = (Raise e, c') ->
  (process_message json_loads m w).1 = Return tt /\
  commands (stats (dispatch json_loads m w)) = commands (stats w) + 1 /\
  clicks (stats (dispatch json_loads m w)) = clicks (stats w) + 1 /\
  movements (stats (dispatch json_loads m w)) = movements (stats w) /\
  screen (dispatch json_loads m w) = h' /\
  socket (dispatch json_loads m w) = c' /\
  trace (dispatch json_loads m w) =
    trace w ++ [HostCall Click; Printed LogLeftClick; Send response_frame;
                Printed (handler_line e)].
Proof.
  intros Hl Ht Hc Hk Hs. apply type_of_field in Ht. unfold dispatch.
  rewrite (run_leftclick json_loads m o Hl Ht w ltac:(now rewrite Hc)).
  rewrite Hk, Hs. cbn. repeat split; reflexivity.
Qed.

(** A scroll command scrolls by 3 ticks, up for scroll_up and down for
    scroll_down, and is counted in commandsReceived only: whether the host
    call returns or raises, movesApplied and clicksApplied are unchanged
    and no reply is sent. *)
Theorem scroll_counts_no_click m o (amount : Z) w :
  json_loads m = Return (JObj o) ->
  o !! "type" = Some (JStr "command") ->
  (o !! "command" = Some (JStr "scroll_up") /\ amount = 3) \/
  (o !! "command" = Some (JStr "scroll_down") /\ amount = -3) ->
  commands (stats (dispatch json_loads m w)) = commands (stats w) + 1 /\
  movements (stats (dispatch json_loads m w)) = movements (stats w) /\
  clicks (stats (dispatch json_loads m w)) = clicks (stats w) /\
  host_calls (emitted w (dispatch json_loads m w)) = [Scroll amount] /\
  replies (emitted w (dispatch json_loads m w)) = [].
Proof.
  intros Hl Ht Hc. apply type_of_field in Ht. unfold dispatch.
  destruct Hc as [[Hc ->]|[Hc ->]].
  - rewrite (run_scroll_up json_loads m o Hl Ht w ltac:(now rewrite Hc)). cbn [snd].
    destruct (gui_scroll 3 (screen w)) as [[[]|e] h']; rewrite emitted_app;
      cbn; repeat split; reflexivity.
  - rewrite (run_scroll_down json_loads m o Hl Ht w ltac:(now rewrite Hc)). cbn [snd].
    destruct (gui_scroll (-3) (screen w)) as [[[]|e] h']; rewrite emitted_app;
      cbn; repeat split; reflexivity.
Qed.

(** A move frame adds one to movesApplied exactly when its scaled deltas
    are not both zero and the host's [moveTo] returns; otherwise
    movesApplied is unchanged. *)
Theorem movement_counted_iff_moved m o (sx sy : Z) w :
  json_loads m = Return (JObj o) ->
  o !! "type" = Some (JStr "move") ->
  scaled_delta (JObj o) "deltaX" = Return sx ->
  scaled_delta (JObj o) "deltaY" = Return sy ->
  movements (stats (dispatch json_loads m w)) =
    movements (stats w) +
    (if decide (sx = 0 /\ sy = 0) then 0
     else match (gui_moveTo
                   (clamp ((gui_position (screen w)).1 + sx) 0
                          (Z.pos (gui_size (screen w)).1 - 1))
                   (clamp ((gui_position (screen w)).2 + sy) 0
                          (Z.pos (gui_size (screen w)).2 - 1))
                   (Some SMOOTH_DURATION) (screen w)).1 with
          | Return _ => 1
          | Raise _ => 0
          end).
Proof.
  intros Hl Ht Hx Hy. apply type_of_field in Ht. unfold dispatch.
  destruct (decide (sx = 0 /\ sy = 0)) as [[-> ->]|Hnz].
  - rewrite (run_move_idle json_loads m o Hl Ht w Hx Hy). cbn. lia.
  - rewrite (run_move json_loads m o Hl Ht sx sy w Hx Hy Hnz). cbn [snd].
    destruct (gui_moveTo _ _ _ _) as [[[]|e] h']; cbn; lia.
Qed.

(** A move whose clamped target is the current position, as when the cursor
    is pushed against an edge of the screen, is still commanded to the host
    and, when [moveTo] returns, still counted in movesApplied. *)
Theorem blocked_move_still_counted m o (sx sy : Z) w :
  json_loads m = Return (JObj o) ->
  o !! "type" = Some (JStr "move") ->
  scaled_delta (JObj o) "deltaX" = Return sx ->
  scaled_delta (JObj o) "deltaY" = Return sy ->
  ~ (sx = 0 /\ sy = 0) ->
  clamp ((gui_position (screen w)).1 + sx) 0 (Z.pos (gui_size (screen w)).1 - 1) =
    (gui_position (screen w)).1 ->
  clamp ((gui_position (screen w)).2 + sy) 0 (Z.pos (gui_size (screen w)).2 - 1) =
    (gui_position (screen w)).2 ->
  (gui_moveTo (gui_position (screen w)).1 (gui_position (screen w)).2
     (Some SMOOTH_DURATION) (screen w)).1 = Return tt ->
  host_calls (emitted w (dispatch json_loads m w)) =
    [Position; Size;
     MoveTo (gui_position (screen w)).1 (gui_position (screen w)).2
       (Some SMOOTH_DURATION)] /\
  movements (stats (dispatch json_loads m w)) = movements (stats w) + 1.
Proof.
  intros Hl Ht Hx Hy Hnz Ex Ey Hret. apply type_of_field in Ht. unfold dispatch.
  rewrite (run_move json_loads m o Hl Ht sx sy w Hx Hy Hnz). cbn [snd].
  rewrite Ex, Ey.
  destruct (gui_moveTo _ _ _ _) as [[[]|e] h']; [|discriminate Hret].
  rewrite emitted_app. auto.
Qed.

(** In a move that is commanded, an axis whose scaled delta is 0 keeps its
    coordinate, provided the cursor is inside the screen on that axis. *)
Theorem still_axis_kept m o (sx sy : Z) w :
  json_loads m = Return (JObj o) ->
  o !! "type" = Some (JStr "move") ->
  scaled_delta (JObj o) "deltaX" = Return sx ->
  scaled_delta (JObj o) "deltaY" = Return sy ->
  ~ (sx = 0 /\ sy = 0) ->
  exists t, commanded_target (emitted w (dispatch json_loads m w)) = Some t /\
    (sx = 0 -> 0 <= (gui_position (screen w)).1 <= Z.pos (gui_size (screen w)).1 - 1 ->
     t.1 = (gui_position (screen w)).1) /\
    (sy = 0 -> 0 <= (gui_position (screen w)).2 <= Z.pos (gui_size (screen w)).2 - 1 ->
     t.2 = (gui_position (screen w)).2).
Proof.
  intros Hl Ht Hx Hy Hnz. apply type_of_field in Ht.
  destruct (move_emitted json_loads m o sx sy w Hl Ht Hx Hy Hnz) as (tail & -> & Htail).
  eexists. split.
  - destruct Htail as [-> | [e ->]]; reflexivity.
  - cbn [fst snd]. unfold clamp. split; intros -> ?; lia.
Qed.

(** Integer deltas of magnitude up to 2000 are scaled exactly: the scaled
    delta is 6n/5 truncated toward zero, so it has the sign of n, is at
    least as large in magnitude, and no non-zero delta is lost. *)
Theorem integer_delta_scaled_exactly o (key : string) (n : Z) :
  o !! key = Some (JInt n) -> -2000 <= n <= 2000 ->
  exists s, scaled_delta (JObj o) key = Return s /\
    s = Z.quot (6 * n) 5 /\ (n <> 0 -> s <> 0) /\ Z.abs n <= Z.abs s /\ 0 <= s * n.
Proof.
  intros Hk Hn. exists (Z.quot (6 * n) 5).
  split; [exact (scaled_delta_small_int o key n Hk Hn)|].
  split; [reflexivity|]. exact (quot_six_fifths n).
Qed.

(** Dead zone: a move frame whose two products with the acceleration factor
    are below 1 in magnitude adds one to commandsReceived and is otherwise
    ignored: movesApplied and clicksApplied, the host, the connection and
    the trace are as before. *)
Theorem small_deltas_ignored m o (dx dy : json) (px py : spec_float) w :
  json_loads m = Return (JObj o) ->
  o !! "type" = Some (JStr "move") ->
  o !! "deltaX" = Some dx -> o !! "deltaY" = Some dy ->
  Py.mul_float dx MOUSE_ACCELERATION = Return px -> finite px = true ->
  Py.mul_float dy MOUSE_ACCELERATION = Return py -> finite py = true ->
  Z.abs (SFnum px) < SFden px -> Z.abs (SFnum py) < SFden py ->
  commands (stats (dispatch json_loads m w)) = commands (stats w) + 1 /\
  movements (stats (dispatch json_loads m w)) = movements (stats w) /\
  clicks (stats (dispatch json_loads m w)) = clicks (stats w) /\
  screen (dispatch json_loads m w) = screen w /\
  socket (dispatch json_loads m w) = socket w /\
  trace (dispatch json_loads m w) = trace w.
Proof.
  intros Hl Ht Hdx Hdy Hpx Hfx Hpy Hfy Sx Sy. apply type_of_field in Ht.
  pose proof (scaled_delta_truncates o "deltaX" dx px Hdx Hpx Hfx) as Hx.
  pose proof (scaled_delta_truncates o "deltaY" dy py Hdy Hpy Hfy) as Hy.
  rewrite (SFtrunc_small px Sx) in Hx. rewrite (SFtrunc_small py Sy) in Hy.
  unfold dispatch. rewrite (run_move_idle json_loads m o Hl Ht w Hx Hy).
  cbn. repeat split; reflexivity.
Qed.

(** The dispatcher reads five keys of a frame and no other: two frames that
    agree on "type", "deltaX", "deltaY", "command" and "device" are
    dispatched alike, whatever else they carry. *)
Theorem other_fields_ignored m m' o o' w :
  json_loads m = Return (JObj o) ->
  json_loads m' = Return (JObj o') ->
  same_fields o o' ->
  process_message json_loads m w = process_message json_loads m' w.
Proof.
  intros Hl Hl' Hs. unfold same_fields, read_fields in Hs.
  repeat match goal with
         | Hf : Forall _ (_ :: _) |- _ => apply Forall_cons in Hf as [? Hf]
         end.
  unfold process_message, try_except, bind, lift, scaled_delta.
  rewrite Hl, Hl'. cbn [Py.get].
  repeat match goal with E : o !! _ = o' !! _ |- _ => rewrite E; clear E end.
  reflexivity.
Qed.

End MoreDispatch.

(** ** Sequences of frames, connections and the periodic report *)

Lemma count_calls_app (kind : host_call -> bool) (l1 l2 : list event) :
  count_calls kind (l1 ++ l2) = count_calls kind l1 + count_calls kind l2.
Proof.
  unfold count_calls, host_calls.
  rewrite omap_app, List.filter_app, length_app. lia.
Qed.

Lemma accounted_nil (s : Stats) : accounted s s [].
Proof.
  unfold accounted, count_calls.
  change (host_calls []) with (@nil host_call).
  change (replies []) with (@nil json). cbn [List.filter length].
  split; [lia|]. split; [lia|]. split; [lia|constructor].
Qed.

Lemma accounted_app (s1 s2 s3 : Stats) (l1 l2 : list event) :
  accounted s1 s2 l1 -> accounted s2 s3 l2 -> accounted s1 s3 (l1 ++ l2).
Proof.
  unfold accounted. intros (M1 & K1 & R1 & F1) (M2 & K2 & R2 & F2).
  rewrite !count_calls_app. unfold replies in *.
  rewrite omap_app, length_app, Forall_app. repeat split; auto; lia.
Qed.

Lemma counters_grow_step (s s' : Stats) :
  counters_step s s' -> counters_grow 1 s s'.
Proof.
  unfold counters_grow. intros [-> | [-> | [-> | ->]]]; cbn; lia.
Qed.

Lemma counters_grow_trans (n1 n2 : Z) (s1 s2 s3 : Stats) :
  counters_grow n1 s1 s2 -> counters_grow n2 s2 s3 -> counters_grow (n1 + n2) s1 s3.
Proof. unfold counters_grow. lia. Qed.

Lemma filter_none_existsb {A} (f : A -> bool) (l : list A) :
  length (List.filter f l) = 0%nat <-> existsb f l = false.
Proof.
  induction l as [|x l IH]; cbn; [tauto|].
  destruct (f x); cbn; [split; discriminate|exact IH].
Qed.

Section Sequences.
Context {H C : Type} `{!PyAutoGUI H} `{!WebSocket C}.
Variable json_loads : string -> outcome json.
Implicit Types (w : world H C) (m : string) (o : gmap string json).

(** What one dispatch adds to the trace, against what it adds to the
    counters. *)
Lemma dispatch_accounted m w :
  exists new, trace (dispatch json_loads m w) = trace w ++ new /\
    accounted (stats w) (stats (dispatch json_loads m w)) new.
Proof.
  unfold dispatch. unfold_program.
  repeat (case_match; simplify_eq/=);
    rewrite <- ?app_assoc; cbn [app];
    first [ eexists; split; [reflexivity|]
          | exists []; split; [now rewrite app_nil_r|] ];
    unfold accounted, count_calls; cbn; repeat split; try lia;
    repeat constructor.
Qed.

(** Over any sequence of frames the trace is only extended, and the
    counters stay accounted for by the events added: every counted movement
    has its [moveTo] call, every counted click its click call, every reply
    sent belongs to a counted click, and no frame other than the response
    frame is ever sent. *)
Theorem activity_accounted (ms : list string) w :
  exists new, trace (receive json_loads ms w) = trace w ++ new /\
    accounted (stats w) (stats (receive json_loads ms w)) new.
Proof.
  revert w. induction ms as [|m ms IH]; intros w.
  - exists []. split; [now rewrite app_nil_r|apply accounted_nil].
  - rewrite receive_cons.
    destruct (dispatch_accounted m w) as (l1 & E1 & A1).
    destruct (IH (dispatch json_loads m w)) as (l2 & E2 & A2).
    exists (l1 ++ l2). split.
    + now rewrite E2, E1, app_assoc.
    + exact (accounted_app _ _ _ _ _ A1 A2).
Qed.

Lemma receive_counters_grow (ms : list string) w :
  counters_grow (Z.of_nat (length ms)) (stats w) (stats (receive json_loads ms w)).
Proof.
  revert w. induction ms as [|m ms IH]; intros w.
  - unfold counters_grow. cbn. lia.
  - rewrite receive_cons.
    replace (Z.of_nat (length (m :: ms))) with (1 + Z.of_nat (length ms))
      by (cbn [length]; lia).
    apply (counters_grow_trans _ _ _ (stats (dispatch json_loads m w))).
    + apply counters_grow_step, dispatch_counters_step.
    + apply IH.
Qed.

(** The counters never decrease: over any sequence of frames
    commandsReceived grows by at most the number of frames, and movesApplied
    and clicksApplied together grow by no more than commandsReceived. *)
Theorem counters_never_decrease (ms : list string) w :
  counters_grow (Z.of_nat (length ms)) (stats w) (stats (receive json_loads ms w)).
Proof. exact (receive_counters_grow ms w). Qed.

Lemma dispatch_commands m w :
  commands (stats (dispatch json_loads m w)) =
    commands (stats w) + Z.b2z (is_object_frame json_loads m).
Proof.
  unfold is_object_frame.
  destruct (json_loads m) as [v|e] eqn:Hl.
  - destruct v;
      try (unfold dispatch;
           rewrite (run_not_object json_loads m _ w Hl I); cbn; lia).
    rewrite (dispatch_object_counted json_loads m _ w Hl). reflexivity.
  - unfold dispatch. rewrite (run_undecodable json_loads m e w Hl). cbn. lia.
Qed.

Lemma receive_commands (ms : list string) w :
  commands (stats (receive json_loads ms w)) =
    commands (stats w) +
    Z.of_nat (length (List.filter (is_object_frame json_loads) ms)).
Proof.
  revert w. induction ms as [|m ms IH]; intros w.
  - cbn. lia.
  - rewrite receive_cons, IH, dispatch_commands. cbn [List.filter].
    destruct (is_object_frame json_loads m); cbn [length Z.b2z]; lia.
Qed.

(** commandsReceived counts exactly the frames that decode to a JSON
    object: a sequence of frames adds to it the number of those among
    them. *)
Theorem commands_count_objects (ms : list string) w :
  commands (stats (receive json_loads ms w)) =
    commands (stats w) +
    Z.of_nat (length (List.filter (is_object_frame json_loads) ms)).
Proof. exact (receive_commands ms w). Qed.

(** The periodic report after a run from zeroed counters: the monitor stays
    silent exactly when no frame so far decoded to an object, and when it
    prints, the applied counters it shows do not exceed the commands. *)
Theorem monitor_reports_after_first_object (ms : list string) w :
  stats w = stats0 ->
  (stats_monitor_tick (stats (receive json_loads ms w)) = None <->
   existsb (is_object_frame json_loads) ms = false) /\
  (forall c mv k,
     stats_monitor_tick (stats (receive json_loads ms w)) = Some (c, mv, k) ->
     0 < c /\ 0 <= mv /\ 0 <= k /\ mv + k <= c).
Proof.
  intros Hw.
  pose proof (receive_commands ms w) as Hc.
  pose proof (receive_counters_grow ms w) as Hg.
  rewrite Hw in Hc, Hg. unfold counters_grow in Hg. cbn in Hc, Hg.
  unfold stats_monitor_tick. split.
  - rewrite <- filter_none_existsb.
    destruct (Z.ltb_spec 0 (commands (stats (receive json_loads ms w)))); split;
      try discriminate; try reflexivity; lia.
  - intros c mv k.
    destruct (Z.ltb_spec 0 (commands (stats (receive json_loads ms w))));
      [|discriminate].
    intros [= <- <- <-]. lia.
Qed.

Lemma run_refused_greeting (ms : list string) (e : exn) (c' : C) w :
  ws_send welcome_frame (socket w) = (Raise e, c') ->
  handle_client json_loads ms w =
    (Return tt,
     World (stats w) (screen w) c'
       (trace w ++
        [Printed (LogClientConnected (ws_remote_address (socket w)));
         Send welcome_frame;
         Printed (match e with
                  | ConnectionClosed => LogClientDisconnected (ws_remote_address (socket w))
                  | _ => LogClientError (ws_remote_address (socket w)) e
                  end)])).
Proof.
  intros Hs.
  unfold handle_client, bind, print, emit, try_except, websocket_send.
  cbn [socket stats screen trace]. rewrite Hs.
  destruct e; cbn [socket stats screen trace]; rewrite <- !app_assoc; reflexivity.
Qed.

(** When the greeting cannot be sent the connection is given up at once: no
    frame is dispatched, the counters and the host are untouched, and one
    line is printed, the disconnect line for [ConnectionClosed] and the
    error line otherwise. *)
Theorem refused_greeting_ends_connection (ms : list string) (e : exn) (c' : C) w :
  ws_send welcome_frame (socket w) = (Raise e, c') ->
  handle_client json_loads ms w =
    (Return tt,
     World (stats w) (screen w) c'
       (trace w ++
        [Printed (LogClientConnected (ws_remote_address (socket w)));
         Send welcome_frame;
         Printed (match e with
                  | ConnectionClosed => LogClientDisconnected (ws_remote_address (socket w))
                  | _ => LogClientError (ws_remote_address (socket w)) e
                  end)])).
Proof. exact (run_refused_greeting ms e c' w). Qed.

(** The receive loop dispatches the frames one after the other, in the
    order of arrival, each on the world the one before left. *)
Lemma receive_fold (ms : list string) w :
  receive json_loads ms w = fold_left (fun w0 m => dispatch json_loads m w0) ms w.
Proof.
  revert w. induction ms as [|m ms IH]; intros w; [reflexivity|].
  rewrite receive_cons. cbn [fold_left]. apply IH.
Qed.

(** [handle_client] in full, once the peer address is read and the greeting
    accepted: the connect line is printed, the welcome frame is sent first,
    every frame is dispatched in the order of arrival, and the way the
    stream ends decides the last line: none on a normal close, the
    disconnect line on [ConnectionClosed], the error line on any other
    exception. *)
Theorem greeting_then_frames (ip : string) (ms : list string) (ending : outcome unit)
    w (c' : C) :
  ws_send welcome_frame (socket w) = (Return tt, c') ->
  let greeted :=
    World (stats w) (screen w) c'
      (trace w ++ [Printed (LogClientConnected ip); Send welcome_frame]) in
  let served := fold_left (fun w0 m => dispatch json_loads m w0) ms greeted in
  (handle_client_stream json_loads (Return ip) ms ending w).2 =
    match ending with
    | Return _ => served
    | Raise e =>
        World (stats served) (screen served) (socket served)
          (trace served ++
           [Printed (match e with
                     | ConnectionClosed => LogClientDisconnected ip
                     | _ => LogClientError ip e
                     end)])
    end.
Proof.
  intros Hs greeted served. subst served. rewrite <- receive_fold.
  unfold handle_client_stream, bind, print, emit, try_except, websocket_send,
    receive, lift.
  cbn [socket stats screen trace]. rewrite Hs, <- app_assoc. cbn [app].
  fold greeted.
  pose proof (receive_returns json_loads ms greeted) as Hr.
  destruct (for_each ms (process_message json_loads) greeted) as [[[]|e0] w2];
    [|discriminate Hr].
  cbn [snd]. destruct ending as [[]|e]; [reflexivity|].
  destruct e; reflexivity.
Qed.

(** The only exception that leaves [handle_client] is the one raised by the
    read of the peer address, which stands before the [try]: then nothing
    is printed, sent or dispatched.  Once the address is read, whatever the
    greeting, the frames and the end of the stream raise is caught by the
    two handlers and the function returns. *)
Theorem only_address_read_escapes (address : outcome string) (ms : list string)
    (ending : outcome unit) w :
  match address with
  | Return _ => (handle_client_stream json_loads address ms ending w).1 = Return tt
  | Raise e => handle_client_stream json_loads address ms ending w = (Raise e, w)
  end.
Proof.
  destruct address as [ip|e]; [|reflexivity].
  unfold handle_client_stream, bind, print, emit, try_except, websocket_send, lift.
  cbn [socket stats screen trace].
  destruct (ws_send welcome_frame (socket w)) as [[[]|e] c'].
  - match goal with
    | |- context [for_each ms ?f ?w1] =>
        pose proof (receive_returns json_loads ms w1) as Hr;
        destruct (for_each ms f w1) as [[[]|e] w2]
    end; [|discriminate Hr].
    destruct ending as [[]|e]; [reflexivity|]. destruct e; reflexivity.
  - destruct e; reflexivity.
Qed.

(** On a connection whose address is known and that is closed normally,
    [handle_client_stream] is [handle_client]. *)
Lemma handle_client_stream_normal (ms : list string) w :
  handle_client_stream json_loads (Return (ws_remote_address (socket w))) ms (Return tt) w =
  handle_client json_loads ms w.
Proof.
  unfold handle_client_stream, handle_client, bind, print, emit, try_except,
    websocket_send, lift.
  cbn [socket stats screen trace].
  destruct (ws_send welcome_frame (socket w)) as [[[]|e] c']; [|reflexivity].
  match goal with
  | |- context [for_each ms ?f ?w1] => destruct (for_each ms f w1) as [[[]|e] w2]
  end; reflexivity.
Qed.

(** No exception leaves [process_message], whatever [json.loads] returns or
    raises and whatever the host and the connection do. *)
Theorem dispatcher_never_raises m w :
  (process_message json_loads m w).1 = Return tt.
Proof. exact (process_message_returns json_loads m w). Qed.

(** The counters are global to the connections: a connection adds to
    commandsReceived the number of its frames that decode to an object when
    its greeting is accepted, and nothing when it is refused. *)
Theorem connection_adds_its_objects (ms : list string) w :
  commands (stats (handle_client json_loads ms w).2) =
    commands (stats w) +
    match (ws_send welcome_frame (socket w)).1 with
    | Return _ => Z.of_nat (length (List.filter (is_object_frame json_loads) ms))
    | Raise _ => 0
    end.
Proof.
  destruct (ws_send welcome_frame (socket w)) as [[[]|e] c'] eqn:Hs; cbn [fst].
  - rewrite (handle_client_dispatches json_loads ms w c' Hs).
    now rewrite receive_commands.
  - rewrite (run_refused_greeting ms e c' w Hs). cbn. lia.
Qed.

End Sequences.

(** ** The further properties on the reference host *)

(** A frame of type "ping". *)
Lemma unknown_type_only_counted_witness :
  let o : gmap string json := <["type" := JStr "ping"]> ∅ in
  let w := Desk.start 100 100 1920 1080 in
  (Samples.decode "ping" = Return (JObj o) /\
   o !! "type" <> Some (JStr "move") /\
   o !! "type" <> Some (JStr "command") /\
   o !! "type" <> Some (JStr "status")) /\
  commands (stats (dispatch Samples.decode "ping" w)) = commands (stats w) + 1 /\
  movements (stats (dispatch Samples.decode "ping" w)) = movements (stats w) /\
  clicks (stats (dispatch Samples.decode "ping" w)) = clicks (stats w) /\
  screen (dispatch Samples.decode "ping" w) = screen w /\
  socket (dispatch Samples.decode "ping" w) = socket w /\
  trace (dispatch Samples.decode "ping" w) = trace w.
Proof.
  intros o w.
  assert (Hyp : Samples.decode "ping" = Return (JObj o) /\
   o !! "type" <> Some (JStr "move") /\
   o !! "type" <> Some (JStr "command") /\
   o !! "type" <> Some (JStr "status")).
  { split; [vm_compute; reflexivity|]. repeat split; vm_compute; discriminate. }
  split; [exact Hyp|]. destruct Hyp as (H1 & H2 & H3 & H4).
  exact (unknown_type_only_counted Samples.decode "ping" o w H1 H2 H3 H4).
Defined.

(** A status frame without a device label. *)
Lemma status_frame_logged_witness :
  let o : gmap string json := <["type" := JStr "status"]> ∅ in
  let w := Desk.start 100 100 1920 1080 in
  (Samples.decode "status" = Return (JObj o) /\
   o !! "type" = Some (JStr "status") /\
   plain_label (default (JStr "Unknown") (o !! "device"))) /\
  (commands (stats (dispatch Samples.decode "status" w)) = commands (stats w) + 1 /\
   movements (stats (dispatch Samples.decode "status" w)) = movements (stats w) /\
   clicks (stats (dispatch Samples.decode "status" w)) = clicks (stats w) /\
   screen (dispatch Samples.decode "status" w) = screen w /\
   socket (dispatch Samples.decode "status" w) = socket w /\
   trace (dispatch Samples.decode "status" w) =
     trace w ++ [Printed (LogDevice (default (JStr "Unknown") (o !! "device")))]) /\
  trace (dispatch Samples.decode "status" w) = [Printed (LogDevice (JStr "Unknown"))].
Proof.
  intros o w.
  assert (Hyp : Samples.decode "status" = Return (JObj o) /\
                o !! "type" = Some (JStr "status") /\
                plain_label (default (JStr "Unknown") (o !! "device")))
    by by_evaluation.
  split; [exact Hyp|]. destruct Hyp as (H1 & H2 & H3).
  split; [|vm_compute; reflexivity].
  exact (status_frame_logged Samples.decode "status" o w H1 H2 H3).
Defined.

(** A double click away from the corner. *)
Lemma click_counted_when_host_returns_witness :
  let o := Desk.command_fields "doubleclick" in
  let w := Desk.start 100 100 1920 1080 in
  (Samples.decode "doubleclick" = Return (JObj o) /\
   o !! "type" = Some (JStr "command") /\
   o !! "command" = Some (JStr "doubleclick") /\
   click_command DoubleClick = Some "doubleclick" /\
   (gui_doubleClick (screen w)).1 = Return tt) /\
  commands (stats (dispatch Samples.decode "doubleclick" w)) = commands (stats w) + 1 /\
  clicks (stats (dispatch Samples.decode "doubleclick" w)) = clicks (stats w) + 1 /\
  movements (stats (dispatch Samples.decode "doubleclick" w)) = movements (stats w) /\
  host_calls (emitted w (dispatch Samples.decode "doubleclick" w)) = [DoubleClick].
Proof.
  intros o w.
  assert (Hyp : Samples.decode "doubleclick" = Return (JObj o) /\
   o !! "type" = Some (JStr "command") /\
   o !! "command" = Some (JStr "doubleclick") /\
   click_command DoubleClick = Some "doubleclick" /\
   (gui_doubleClick (screen w)).1 = Return tt) by by_evaluation.
  split; [exact Hyp|]. destruct Hyp as (H1 & H2 & H3 & H4 & H5).
  exact (click_counted_when_host_returns Samples.decode "doubleclick" o DoubleClick
           "doubleclick" w H1 H2 H3 H4 H5).
Defined.

(** A left click on a connection that is already closed. *)
Lemma unsent_reply_keeps_click_witness :
  let o := Desk.command_fields "leftclick" in
  let w := Samples.offline 100 100 1920 1080 in
  (Samples.decode "leftclick" = Return (JObj o) /\
   o !! "type" = Some (JStr "command") /\
   o !! "command" = Some (JStr "leftclick") /\
   gui_click (screen w) = (Return tt, screen w) /\
   ws_send response_frame (socket w) = (Raise ConnectionClosed, socket w)) /\
  (process_message Samples.decode "leftclick" w).1 = Return tt /\
  commands (stats (dispatch Samples.decode "leftclick" w)) = commands (stats w) + 1 /\
  clicks (stats (dispatch Samples.decode "leftclick" w)) = clicks (stats w) + 1 /\
  movements (stats (dispatch Samples.decode "leftclick" w)) = movements (stats w) /\
  screen (dispatch Samples.decode "leftclick" w) = screen w /\
  socket (dispatch Samples.decode "leftclick" w) = socket w /\
  trace (dispatch Samples.decode "leftclick" w) =
    trace w ++ [HostCall Click; Printed LogLeftClick; Send response_frame;
                Printed (handler_line ConnectionClosed)].
Proof.
  intros o w.
  assert (Hyp : Samples.decode "leftclick" = Return (JObj o) /\
   o !! "type" = Some (JStr "command") /\
   o !! "command" = Some (JStr "leftclick") /\
   gui_click (screen w) = (Return tt, screen w) /\
   ws_send response_frame (socket w) = (Raise ConnectionClosed, socket w))
    by by_evaluation.
  split; [exact Hyp|]. destruct Hyp as (H1 & H2 & H3 & H4 & H5).
  exact (unsent_reply_keeps_click Samples.decode "leftclick" o ConnectionClosed
           (screen w) (socket w) w H1 H2 H3 H4 H5).
Defined.

(** A scroll down that the host refuses, the cursor being in the corner. *)
Lemma scroll_counts_no_click_witness :
  let o := Desk.command_fields "scroll_down" in
  let w := Desk.start 0 0 1920 1080 in
  (Samples.decode "scroll_down" = Return (JObj o) /\
   o !! "type" = Some (JStr "command") /\
   ((o !! "command" = Some (JStr "scroll_up") /\ -3 = 3) \/
    (o !! "command" = Some (JStr "scroll_down") /\ -3 = -3))) /\
  commands (stats (dispatch Samples.decode "scroll_down" w)) = commands (stats w) + 1 /\
  movements (stats (dispatch Samples.decode "scroll_down" w)) = movements (stats w) /\
  clicks (stats (dispatch Samples.decode "scroll_down" w)) = clicks (stats w) /\
  host_calls (emitted w (dispatch Samples.decode "scroll_down" w)) = [Scroll (-3)] /\
  replies (emitted w (dispatch Samples.decode "scroll_down" w)) = [].
Proof.
  intros o w.
  assert (Hyp : Samples.decode "scroll_down" = Return (JObj o) /\
   o !! "type" = Some (JStr "command") /\
   ((o !! "command" = Some (JStr "scroll_up") /\ -3 = 3) \/
    (o !! "command" = Some (JStr "scroll_down") /\ -3 = -3))).
  { split; [vm_compute; reflexivity|]. split; [vm_compute; reflexivity|].
    right. split; [vm_compute; reflexivity|reflexivity]. }
  split; [exact Hyp|]. destruct Hyp as (H1 & H2 & H3).
  exact (scroll_counts_no_click Samples.decode "scroll_down" o (-3) w H1 H2 H3).
Defined.

(** A move of 3 from (100, 100): one movement. *)
Lemma movement_counted_iff_moved_witness :
  let o := Desk.move_fields (JInt 3) (JInt 0) in
  let w := Desk.start 100 100 1920 1080 in
  (Samples.decode "move 3 0" = Return (JObj o) /\
   o !! "type" = Some (JStr "move") /\
   scaled_delta (JObj o) "deltaX" = Return 3 /\
   scaled_delta (JObj o) "deltaY" = Return 0) /\
  movements (stats (dispatch Samples.decode "move 3 0" w)) = 1.
Proof.
  intros o w.
  assert (Hyp : Samples.decode "move 3 0" = Return (JObj o) /\
   o !! "type" = Some (JStr "move") /\
   scaled_delta (JObj o) "deltaX" = Return 3 /\
   scaled_delta (JObj o) "deltaY" = Return 0) by by_evaluation.
  split; [exact Hyp|]. destruct Hyp as (H1 & H2 & H3 & H4).
  rewrite (movement_counted_iff_moved Samples.decode "move 3 0" o 3 0 w H1 H2 H3 H4).
  vm_compute. reflexivity.
Defined.

(** A move of 3 to the right with the cursor on the right edge. *)
Lemma blocked_move_still_counted_witness :
  let o := Desk.move_fields (JInt 3) (JInt 0) in
  let w := Desk.start 1919 100 1920 1080 in
  (Samples.decode "move 3 0" = Return (JObj o) /\
   o !! "type" = Some (JStr "move") /\
   scaled_delta (JObj o) "deltaX" = Return 3 /\
   scaled_delta (JObj o) "deltaY" = Return 0 /\
   ~ (3 = 0 /\ 0 = 0) /\
   clamp (1919 + 3) 0 (1920 - 1) = 1919 /\ clamp (100 + 0) 0 (1080 - 1) = 100 /\
   (gui_moveTo 1919 100 (Some SMOOTH_DURATION) (screen w)).1 = Return tt) /\
  host_calls (emitted w (dispatch Samples.decode "move 3 0" w)) =
    [Position; Size; MoveTo 1919 100 (Some SMOOTH_DURATION)] /\
  movements (stats (dispatch Samples.decode "move 3 0" w)) = movements (stats w) + 1.
Proof.
  intros o w.
  assert (Hyp : Samples.decode "move 3 0" = Return (JObj o) /\
   o !! "type" = Some (JStr "move") /\
   scaled_delta (JObj o) "deltaX" = Return 3 /\
   scaled_delta (JObj o) "deltaY" = Return 0 /\
   ~ (3 = 0 /\ 0 = 0) /\
   clamp (1919 + 3) 0 (1920 - 1) = 1919 /\ clamp (100 + 0) 0 (1080 - 1) = 100 /\
   (gui_moveTo 1919 100 (Some SMOOTH_DURATION) (screen w)).1 = Return tt).
  { repeat split; try (vm_compute; reflexivity). intros [E _]. discriminate E. }
  split; [exact Hyp|]. destruct Hyp as (H1 & H2 & H3 & H4 & H5 & H6 & H7 & H8).
  exact (blocked_move_still_counted Samples.decode "move 3 0" o 3 0 w
           H1 H2 H3 H4 H5 H6 H7 H8).
Defined.

(** A horizontal move of 3 from (100, 100) keeps the row 100. *)
Lemma still_axis_kept_witness :
  let o := Desk.move_fields (JInt 3) (JInt 0) in
  let w := Desk.start 100 100 1920 1080 in
  (Samples.decode "move 3 0" = Return (JObj o) /\
   o !! "type" = Some (JStr "move") /\
   scaled_delta (JObj o) "deltaX" = Return 3 /\
   scaled_delta (JObj o) "deltaY" = Return 0 /\
   ~ (3 = 0 /\ 0 = 0)) /\
  (exists t, commanded_target (emitted w (dispatch Samples.decode "move 3 0" w)) = Some t /\
     (3 = 0 -> 0 <= (gui_position (screen w)).1 <= Z.pos (gui_size (screen w)).1 - 1 ->
      t.1 = (gui_position (screen w)).1) /\
     (0 = 0 -> 0 <= (gui_position (screen w)).2 <= Z.pos (gui_size (screen w)).2 - 1 ->
      t.2 = (gui_position (screen w)).2)) /\
  commanded_target (emitted w (dispatch Samples.decode "move 3 0" w)) = Some (103, 100).
Proof.
  intros o w.
  assert (Hyp : Samples.decode "move 3 0" = Return (JObj o) /\
   o !! "type" = Some (JStr "move") /\
   scaled_delta (JObj o) "deltaX" = Return 3 /\
   scaled_delta (JObj o) "deltaY" = Return 0 /\
   ~ (3 = 0 /\ 0 = 0)).
  { repeat split; try (vm_compute; reflexivity). intros [E _]. discriminate E. }
  split; [exact Hyp|]. destruct Hyp as (H1 & H2 & H3 & H4 & H5).
  split; [|vm_compute; reflexivity].
  exact (still_axis_kept Samples.decode "move 3 0" o 3 0 w H1 H2 H3 H4 H5).
Defined.

(** A delta of 5 is scaled to 6. *)
Lemma integer_delta_scaled_exactly_witness :
  let o := Desk.move_fields (JInt 5) (JInt 0) in
  (o !! "deltaX" = Some (JInt 5) /\ -2000 <= 5 <= 2000) /\
  (exists s, scaled_delta (JObj o) "deltaX" = Return s /\
     s = Z.quot (6 * 5) 5 /\ (5 <> 0 -> s <> 0) /\ Z.abs 5 <= Z.abs s /\ 0 <= s * 5) /\
  scaled_delta (JObj o) "deltaX" = Return 6.
Proof.
  intros o.
  assert (Hyp : o !! "deltaX" = Some (JInt 5) /\ -2000 <= 5 <= 2000).
  { split; [vm_compute; reflexivity|lia]. }
  split; [exact Hyp|]. destruct Hyp as (H1 & H2).
  split; [|vm_compute; reflexivity].
  exact (integer_delta_scaled_exactly o "deltaX" 5 H1 H2).
Defined.

(** Deltas of 0.5 and -0.5: the products 0.6 and -0.6 are below 1. *)
Lemma small_deltas_ignored_witness :
  let o := Desk.move_fields (JFloat Samples.half) (JFloat (SFopp Samples.half)) in
  let w := Desk.start 100 100 1920 1080 in
  let px := Samples.half_scaled in
  let py := SFopp Samples.half_scaled in
  (Samples.decode "move 0.5 -0.5" = Return (JObj o) /\
   o !! "type" = Some (JStr "move") /\
   o !! "deltaX" = Some (JFloat Samples.half) /\
   o !! "deltaY" = Some (JFloat (SFopp Samples.half)) /\
   Py.mul_float (JFloat Samples.half) MOUSE_ACCELERATION = Return px /\
   finite px = true /\
   Py.mul_float (JFloat (SFopp Samples.half)) MOUSE_ACCELERATION = Return py /\
   finite py = true /\
   Z.abs (SFnum px) < SFden px /\ Z.abs (SFnum py) < SFden py) /\
  commands (stats (dispatch Samples.decode "move 0.5 -0.5" w)) = commands (stats w) + 1 /\
  movements (stats (dispatch Samples.decode "move 0.5 -0.5" w)) = movements (stats w) /\
  clicks (stats (dispatch Samples.decode "move 0.5 -0.5" w)) = clicks (stats w) /\
  screen (dispatch Samples.decode "move 0.5 -0.5" w) = screen w /\
  socket (dispatch Samples.decode "move 0.5 -0.5" w) = socket w /\
  trace (dispatch Samples.decode "move 0.5 -0.5" w) = trace w.
Proof.
  intros o w px py.
  assert (Hyp : Samples.decode "move 0.5 -0.5" = Return (JObj o) /\
   o !! "type" = Some (JStr "move") /\
   o !! "deltaX" = Some (JFloat Samples.half) /\
   o !! "deltaY" = Some (JFloat (SFopp Samples.half)) /\
   Py.mul_float (JFloat Samples.half) MOUSE_ACCELERATION = Return px /\
   finite px = true /\
   Py.mul_float (JFloat (SFopp Samples.half)) MOUSE_ACCELERATION = Return py /\
   finite py = true /\
   Z.abs (SFnum px) < SFden px /\ Z.abs (SFnum py) < SFden py) by by_evaluation.
  split; [exact Hyp|].
  destruct Hyp as (H1 & H2 & H3 & H4 & H5 & H6 & H7 & H8 & H9 & H10).
  exact (small_deltas_ignored Samples.decode "move 0.5 -0.5" o _ _ px py w
           H1 H2 H3 H4 H5 H6 H7 H8 H9 H10).
Defined.

(** A move frame that also carries a sequence number. *)
Lemma other_fields_ignored_witness :
  let o := Desk.move_fields (JInt 3) (JInt 0) in
  let o' : gmap string json := <["seq" := JInt 7]> o in
  let w := Desk.start 100 100 1920 1080 in
  (Samples.decode "move 3 0" = Return (JObj o) /\
   Samples.decode "move 3 0 seq" = Return (JObj o') /\
   same_fields o o') /\
  process_message Samples.decode "move 3 0" w =
    process_message Samples.decode "move 3 0 seq" w.
Proof.
  intros o o' w.
  assert (Hyp : Samples.decode "move 3 0" = Return (JObj o) /\
   Samples.decode "move 3 0 seq" = Return (JObj o') /\ same_fields o o').
  { split; [vm_compute; reflexivity|]. split; [vm_compute; reflexivity|].
    repeat constructor. }
  split; [exact Hyp|]. destruct Hyp as (H1 & H2 & H3).
  exact (other_fields_ignored Samples.decode "move 3 0" "move 3 0 seq" o o' w H1 H2 H3).
Defined.

(** An array and then a ping, from zeroed counters: once the ping is
    counted the monitor prints. *)
Lemma monitor_reports_after_first_object_witness :
  let w := Desk.start 100 100 1920 1080 in
  stats w = stats0 /\
  ((stats_monitor_tick (stats (receive Samples.decode ["[1, 2]"; "ping"] w)) = None <->
    existsb (is_object_frame Samples.decode) ["[1, 2]"; "ping"] = false) /\
   (forall c mv k,
      stats_monitor_tick (stats (receive Samples.decode ["[1, 2]"; "ping"] w)) =
        Some (c, mv, k) ->
      0 < c /\ 0 <= mv /\ 0 <= k /\ mv + k <= c)) /\
  stats_monitor_tick (stats (receive Samples.decode ["[1, 2]"; "ping"] w)) = Some (1, 0, 0) /\
  stats_monitor_tick (stats (receive Samples.decode ["[1, 2]"] w)) = None.
Proof.
  intros w.
  assert (Hyp : stats w = stats0) by reflexivity.
  split; [exact Hyp|].
  split; [|by_evaluation].
  exact (monitor_reports_after_first_object Samples.decode ["[1, 2]"; "ping"] w Hyp).
Defined.

(** A connection whose greeting is accepted, with two frames, and which is
    then closed abnormally. *)
Lemma greeting_then_frames_witness :
  let w := Desk.start 100 100 1920 1080 in
  let ip := "192.168.4.2" in
  let served :=
    fold_left (fun w0 m => dispatch Samples.decode m w0) ["leftclick"; "ping"]
      (World (stats w) (screen w) (socket w)
         (trace w ++ [Printed (LogClientConnected ip); Send welcome_frame])) in
  ws_send welcome_frame (socket w) = (Return tt, socket w) /\
  (handle_client_stream Samples.decode (Return ip) ["leftclick"; "ping"]
     (Raise ConnectionClosed) w).2 =
    World (stats served) (screen served) (socket served)
      (trace served ++ [Printed (LogClientDisconnected ip)]) /\
  trace (handle_client_stream Samples.decode (Return ip) ["leftclick"; "ping"]
           (Raise ConnectionClosed) w).2 =
    [Printed (LogClientConnected ip); Send welcome_frame;
     HostCall Click; Printed LogLeftClick; Send response_frame;
     Printed (LogClientDisconnected ip)] /\
  stats (handle_client_stream Samples.decode (Return ip) ["leftclick"; "ping"]
           (Raise ConnectionClosed) w).2 = mkStats 2 0 1.
Proof.
  intros w ip served.
  assert (Hyp : ws_send welcome_frame (socket w) = (Return tt, socket w))
    by (vm_compute; reflexivity).
  split; [exact Hyp|]. split; [|split; vm_compute; reflexivity].
  exact (greeting_then_frames Samples.decode ip ["leftclick"; "ping"]
           (Raise ConnectionClosed) w (socket w) Hyp).
Defined.

(** A connection that is closed before the greeting. *)
Lemma refused_greeting_ends_connection_witness :
  let w := Samples.offline 100 100 1920 1080 in
  ws_send welcome_frame (socket w) = (Raise ConnectionClosed, socket w) /\
  handle_client Samples.decode ["leftclick"; "ping"] w =
    (Return tt,
     World (stats w) (screen w) (socket w)
       (trace w ++
        [Printed (LogClientConnected (ws_remote_address (socket w)));
         Send welcome_frame;
         Printed (LogClientDisconnected (ws_remote_address (socket w)))])).
Proof.
  intros w.
  assert (Hyp : ws_send welcome_frame (socket w) = (Raise ConnectionClosed, socket w))
    by (vm_compute; reflexivity).
  split; [exact Hyp|].
  exact (refused_greeting_ends_connection Samples.decode ["leftclick"; "ping"]
           ConnectionClosed (socket w) w Hyp).
Defined.
